(** * A shallow embedding of the DDNS client script (src/utils/client-script.py)

    The script is a sequential Python program: a request helper
    ([make_request]) over urllib, the two steps of an update cycle
    ([get_current_ip], [update_dns]), the cycle itself
    ([check_and_update_ip]) and the endless main loop with its signal handler.

    Python objects are modelled by the inductive [value]; dictionaries are
    finite maps, and a dictionary of headers is the list of its items in the
    order of insertion.  Side effects (console output, the network, the wall
    clock, sleeping, signal delivery) are threaded through an explicit
    [world]; what the outside answers is read from oracles, the fields of
    the class [Platform].  A computation ends in one of three ways: it
    returns, it raises an [Exception], or it unwinds with a [BaseException]
    that [except Exception] does not catch.

    The script calls [urlopen] of urllib.request with the default opener.
    What that opener does with a response is part of what the script does,
    so it is modelled too, after urllib/request.py of CPython 3.11: a
    response whose status is not 2xx becomes an [HTTPError], unless the
    redirect handler follows it with a request of its own.  One exchange
    with the network (a request goes out, a response comes back) is an
    oracle.

    Conventions of the model:
    - a coroutine runs where it is awaited, and [asyncio.run] runs its
      argument to the end;
    - [print] always succeeds;
    - every blocking call ends, and a termination signal reaches the
      program while it blocks: in an exchange with the network, in the read
      of a body, or in [time.sleep];
    - an exception has the attributes the script reads or sets ([str],
      [response], [traceback]) and the cause given by [raise ... from]; the
      context the interpreter records on its own is left out. *)

From Stdlib Require Import ZArith String Ascii List Floats Lia.
From stdpp Require Import base strings gmap pretty.
From Equations Require Import Equations.

#[local] Set Warnings "-register-all".
#[local] Open Scope Z_scope.
#[local] Open Scope string_scope.

(** ** Text

    A Python [str] is a Rocq [string]; each character stands for one code
    point below 256. *)

Definition dquote : string := String "034"%char EmptyString.

Definition newline : string := String "010"%char EmptyString.

(** [str.isspace] for one code point below 256. *)
Definition is_space (c : ascii) : bool :=
  let n := N_of_ascii c in
  ((9 <=? n) && (n <=? 13) || (28 <=? n) && (n <=? 32) ||
   (n =? 133) || (n =? 160))%N.

Fixpoint lstrip (s : string) : string :=
  match s with
  | EmptyString => EmptyString
  | String c rest => if is_space c then lstrip rest else s
  end.

Fixpoint rstrip (s : string) : string :=
  match s with
  | EmptyString => EmptyString
  | String c rest =>
      match rstrip rest with
      | EmptyString => if is_space c then EmptyString else String c EmptyString
      | kept => String c kept
      end
  end.

(** [s.strip()] *)
Definition strip (s : string) : string := rstrip (lstrip s).

(** Truth value of a [str]: non-empty. *)
Definition nonempty (s : string) : bool :=
  match s with EmptyString => false | String _ _ => true end.

(** [str.lower] for one code point below 256. *)
Definition lower_char (c : ascii) : ascii :=
  let n := N_of_ascii c in
  if ((65 <=? n) && (n <=? 90) ||
      (192 <=? n) && (n <=? 222) && negb (n =? 215))%N
  then ascii_of_N (n + 32) else c.

Fixpoint lower (s : string) : string :=
  match s with
  | EmptyString => EmptyString
  | String c rest => String (lower_char c) (lower rest)
  end.

(** The capital of one code point below 256, where that is again below 256
    (it is not for the micro sign and for y with diaeresis, which are left
    as they are). *)
Definition upper_char (c : ascii) : ascii :=
  let n := N_of_ascii c in
  if ((97 <=? n) && (n <=? 122) ||
      (224 <=? n) && (n <=? 254) && negb (n =? 247))%N
  then ascii_of_N (n - 32) else c.

(** [s.capitalize()]: the first character in title case, the others in
    lower case.  The title case of the sharp s (code point 223) is [Ss]. *)
Definition capitalize (s : string) : string :=
  match s with
  | EmptyString => EmptyString
  | String c rest =>
      if (N_of_ascii c =? 223)%N then "Ss" ++ lower rest
      else String (upper_char c) (lower rest)
  end.

(** [s.replace(' ', '%20')] *)
Fixpoint replace_spaces (s : string) : string :=
  match s with
  | EmptyString => EmptyString
  | String c rest =>
      if (N_of_ascii c =? 32)%N then "%20" ++ replace_spaces rest
      else String c (replace_spaces rest)
  end.

(** [s.encode('utf-8')] for code points below 256. *)
Fixpoint encode_utf8 (s : string) : list Byte.byte :=
  match s with
  | EmptyString => []
  | String c rest =>
      let n := N_of_ascii c in
      (if (n <? 128)%N then [byte_of_ascii c]
       else [byte_of_ascii (ascii_of_N (192 + n / 64));
             byte_of_ascii (ascii_of_N (128 + n mod 64))])
      ++ encode_utf8 rest
  end.

(** ** Python values *)

Inductive value : Type :=
| VNone
| VBool (b : bool)
| VInt (z : Z)
| VFloat (f : float)
| VStr (s : string)
| VList (l : list value)
| VDict (d : gmap string value).

(** [bool(v)] *)
Definition truthy (v : value) : bool :=
  match v with
  | VNone => false
  | VBool b => b
  | VInt z => negb (z =? 0)%Z
  | VFloat f => negb (PrimFloat.eqb f PrimFloat.zero)
  | VStr s => nonempty s
  | VList l => match l with [] => false | _ :: _ => true end
  | VDict d => negb (bool_decide (d = ∅))
  end.

(** [type(v).__name__] *)
Definition type_name (v : value) : string :=
  match v with
  | VNone => "NoneType"
  | VBool _ => "bool"
  | VInt _ => "int"
  | VFloat _ => "float"
  | VStr _ => "str"
  | VList _ => "list"
  | VDict _ => "dict"
  end.

(** [v == s] for a string literal [s]. *)
Definition eq_str (v : value) (s : string) : bool :=
  match v with
  | VStr t => bool_decide (t = s)
  | _ => false
  end.

(** The body handed to [make_request]: nothing, a Python object, or bytes
    (what the helper itself turns a [dict] or [str] body into). *)
Inductive payload : Type :=
| NoData
| Obj (v : value)
| Bytes (b : list Byte.byte).

Definition payload_truthy (p : payload) : bool :=
  match p with
  | NoData => false
  | Obj v => truthy v
  | Bytes b => match b with [] => false | _ :: _ => true end
  end.

(** ** Dictionaries of headers

    The [headers] argument of [make_request] and the [headers] attribute of
    a urllib [Request]: a Python [dict] from strings to strings, as the list
    of its items in the order of insertion. *)
Definition header_dict : Type := list (string * string).

(** [key in d] *)
Definition hd_has (key : string) (d : header_dict) : bool :=
  existsb (fun kv => bool_decide (fst kv = key)) d.

(** [d.get(key)] *)
Fixpoint hd_get (key : string) (d : header_dict) : option string :=
  match d with
  | [] => None
  | (k, v) :: rest => if bool_decide (k = key) then Some v else hd_get key rest
  end.

(** [d[key] = val]: a key that is there keeps its place. *)
Fixpoint hd_set (key val : string) (d : header_dict) : header_dict :=
  match d with
  | [] => [(key, val)]
  | (k, v) :: rest =>
      if bool_decide (k = key) then (k, val) :: rest
      else (k, v) :: hd_set key val rest
  end.

(** [d.pop(key, None)] *)
Definition hd_pop (key : string) (d : header_dict) : header_dict :=
  List.filter (fun kv => negb (bool_decide (fst kv = key))) d.

(** ** HTTP messages, requests and responses *)

(** [http.client.HTTPMessage]: the header lines in order; names compare
    without regard to case. *)
Definition message : Type := list (string * string).

Definition same_name (a b : string) : bool := bool_decide (lower a = lower b).

(** [name in headers] *)
Definition msg_contains (h : message) (name : string) : bool :=
  existsb (fun kv => same_name (fst kv) name) h.

(** [headers[name]]: the first line of that name, [None] without one. *)
Fixpoint msg_get (h : message) (name : string) : option string :=
  match h with
  | [] => None
  | (k, v) :: rest => if same_name k name then Some v else msg_get rest name
  end.

Definition opt_str (o : option string) : value :=
  match o with Some s => VStr s | None => VNone end.

(** [dict(headers)]: every name as written, mapped to [headers[name]]. *)
Definition msg_dict (h : message) : gmap string value :=
  list_to_map (map (fun kv => (fst kv, opt_str (msg_get h (fst kv)))) h).

(** The signals the script registers [handle_signal] for. *)
Inductive signal : Type := SIGINT | SIGTERM.

(** The body of a response, by what reading it gives: bytes that decode as
    UTF-8 to [text]; bytes that do not, so that [decode] raises [e]; a read
    that raises [e]; or a termination signal that arrives while the read
    blocks. *)
Inductive body_read (E : Type) : Type :=
| ReadText (text : string)
| Undecodable (e : E)
| ReadFails (e : E)
| ReadInterrupted (s : signal).
Arguments ReadText {E} text.
Arguments Undecodable {E} e.
Arguments ReadFails {E} e.
Arguments ReadInterrupted {E} s.

(** ** Exceptions

    Every class listed derives from [Exception]; [HTTPError] derives from
    [URLError] and [JSONDecodeError] from [ValueError].  [OtherException]
    stands for any further class that derives from [Exception] and from
    none of [URLError] and [JSONDecodeError].  An [HTTPError] is also the
    error response: it has the status code, the headers and a body to read. *)
Inductive exn_class : Type :=
| Exception
| HTTPError (code : Z) (hdrs : message) (fp : body_read exn)
| URLError
| JSONDecodeError
| ValueError
| KeyError
| TypeError
| AttributeError
| OtherException (name : string)
with exn : Type :=
| Exn (cls : exn_class)
      (text : string)               (* str(error) *)
      (response : option value)     (* the attribute `response`, when set *)
      (traceback : option value)    (* the attribute `traceback`, when set *)
      (cause : option exn).         (* __cause__, set by `raise ... from` *)

Definition exn_class_of (e : exn) : exn_class := let (c, _, _, _, _) := e in c.
Definition exn_str (e : exn) : string := let (_, s, _, _, _) := e in s.
Definition exn_response (e : exn) : option value := let (_, _, r, _, _) := e in r.
Definition exn_traceback (e : exn) : option value := let (_, _, _, t, _) := e in t.
Definition exn_cause (e : exn) : option exn := let (_, _, _, _, c) := e in c.

(** [cls(msg)] freshly built: no attribute set, no cause. *)
Definition new_exn (cls : exn_class) (msg : string) : exn :=
  Exn cls msg None None None.

(** [raise new from cause] *)
Definition from_cause (new cause : exn) : exn :=
  Exn (exn_class_of new) (exn_str new) (exn_response new) (exn_traceback new)
      (Some cause).

(** [e.response = r] *)
Definition set_response (e : exn) (r : value) : exn :=
  Exn (exn_class_of e) (exn_str e) (Some r) (exn_traceback e) (exn_cause e).

(** The exceptions that are not [Exception]s. *)
Inductive base_exception : Type :=
| SystemExit (code : Z)
| KeyboardInterrupt.

(** What a function without side effects gives: a value, or the exception
    it raises. *)
Inductive fallible (A : Type) : Type :=
| Gives (a : A)
| Throws (e : exn).
Arguments Gives {A} a.
Arguments Throws {A} e.

(** A urllib [Request]: the URL it was built for, its [headers] (names
    capitalized), the attribute [method] when it is set, and [data]. *)
Record request : Type := Req {
  req_url : string;
  req_headers : header_dict;
  req_method : option string;
  req_data : payload
}.

(** The response of one exchange.  An [HTTPResponse] has the status code
    and the reason phrase of its status line; the response to a request
    that is not HTTP (ftp, file, data) has no status: its [status] is
    [None]. *)
Record http_response : Type := Response {
  status : option Z;
  reason : string;
  resp_headers : message;
  resp_body : body_read exn
}.

(** What one exchange with the network does: a response comes back, an
    exception is raised, or a termination signal cuts it short. *)
Inductive exchange_result : Type :=
| Replied (r : http_response)
| Fails (e : exn)
| Interrupted (s : signal).

(** What urllib makes of the target of a redirect. *)
Inductive redirect_target : Type :=
| Target (newurl : string)     (* the absolute URL to ask next *)
| NotAllowed                   (* its scheme is not http, https or ftp *)
| Malformed (e : exn).         (* parsing it raises [e] *)

(** ** The world and the computations over it *)

Record world : Type := World {
  console : list string;      (* the lines printed so far *)
  sent : list request;        (* the requests that went out so far *)
  ticks : nat;                (* how often the wall clock was read *)
  slept : list Z;             (* the completed sleeps, in seconds *)
  delivered : list signal     (* the termination signals delivered so far *)
}.

Inductive outcome (A : Type) : Type :=
| Return (a : A)
| Raise (e : exn)
| Abort (b : base_exception).
Arguments Return {A} a.
Arguments Raise {A} e.
Arguments Abort {A} b.

Definition M (A : Type) : Type := world -> world * outcome A.

Definition ret {A} (a : A) : M A := fun w => (w, Return a).

Definition raise {A} (e : exn) : M A := fun w => (w, Raise e).

Definition bind {A B} (m : M A) (k : A -> M B) : M B :=
  fun w =>
    match m w with
    | (w', Return a) => k a w'
    | (w', Raise e) => (w', Raise e)
    | (w', Abort b) => (w', Abort b)
    end.

(** A function without side effects, called. *)
Definition lift {A} (r : fallible A) : M A :=
  match r with
  | Gives a => ret a
  | Throws e => raise e
  end.

Declare Scope py_scope.
Delimit Scope py_scope with py.
Notation "x <- c ;; k" := (bind c (fun x => k))
  (at level 100, c at next level, right associativity) : py_scope.
Notation "c ;; k" := (bind c (fun _ => k))
  (at level 100, right associativity) : py_scope.
#[local] Open Scope py_scope.

(** [try: body / except Exception as error: handler error].  Every [exn] is
    an [Exception]; a [base_exception] passes through. *)
Definition try_except {A} (body : M A) (handler : exn -> M A) : M A :=
  fun w =>
    match body w with
    | (w', Raise e) => handler e w'
    | r => r
    end.

(** [try: body / except: fallback], the bare clause: it catches whatever
    the body raises, a [base_exception] included. *)
Definition try_bare {A} (body : M A) (fallback : M A) : M A :=
  fun w =>
    match body w with
    | (w', Return a) => (w', Return a)
    | (w', _) => fallback w'
    end.

(** [print(line)] *)
Definition print (line : string) : M unit :=
  fun w =>
    (World (console w ++ [line]) (sent w) (ticks w) (slept w) (delivered w),
     Return tt).

(** ** Time

    A [datetime] is a number of seconds; ['%H:%M:%S'] shows nothing finer. *)

Definition UPDATE_INTERVAL : Z := 300.

Definition two_digits (n : Z) : string :=
  if (n <? 10)%Z then "0" ++ pretty n else pretty n.

(** [t.strftime('%H:%M:%S')] *)
Definition strftime_HMS (t : Z) : string :=
  two_digits ((t / 3600) mod 24) ++ ":" ++ two_digits ((t / 60) mod 60)
  ++ ":" ++ two_digits (t mod 60).

(** [UPDATE_INTERVAL/60] in an f-string: true division of 300 by 60 is the
    float 5.0, which prints as [5.0]. *)
Definition interval_minutes : string := "5.0".

(** [v[key]] for a string key. *)
Definition getitem (v : value) (key : string) : M value :=
  match v with
  | VDict d =>
      match d !! key with
      | Some x => ret x
      | None => raise (new_exn KeyError ("'" ++ key ++ "'"))
      end
  | VList _ =>
      raise (new_exn TypeError "list indices must be integers or slices, not str")
  | VStr _ =>
      raise (new_exn TypeError "string indices must be integers, not 'str'")
  | _ =>
      raise (new_exn TypeError ("'" ++ type_name v ++ "' object is not subscriptable"))
  end.

(** [v.get(key, dflt)]: only a [dict] has the method. *)
Definition dict_get (v : value) (key : string) (dflt : value) : M value :=
  match v with
  | VDict d => ret (default dflt (d !! key))
  | _ =>
      raise (new_exn AttributeError
               ("'" ++ type_name v ++ "' object has no attribute 'get'"))
  end.

(** What an iteration of the request loop hands to the loop: the variables
    of the next iteration after a redirect, or the value to return. *)
Inductive next : Type :=
| Follow (url : string) (headers : option header_dict) (data : payload)
| Done (v : value).

(** What one turn of the opener of urllib ends in: the response to hand
    back, or the request that follows a redirect, with the dictionary
    [redirect_dict] that counts the targets visited. *)
Inductive hop : Type :=
| Arrived (r : http_response)
| Redirected (new : request) (visited : gmap string nat).

(** ** The program *)

(** The placeholders substituted when the script is served. *)
Class Config : Type := {
  TOKEN : string;
  SERVER_URL : string;
  DOMAIN : string
}.

(** What the program takes from the interpreter, its libraries and the
    outside. *)
Class Platform : Type := {
  (** [json.loads] and [json.dumps]; [json.loads] raises [JSONDecodeError]
      for a text that is no JSON, and may raise otherwise (RecursionError,
      ValueError) *)
  json_loads : string -> fallible value;
  json_dumps : value -> fallible string;
  (** [str] of the values whose text is not fixed by their content as
      modelled here (floats and containers) *)
  repr_compound : value -> string;
  (** [os.environ.get('DEBUG')] *)
  environ_DEBUG : option string;
  (** [Request(url)]: the ValueError for a URL in which urllib finds no
      scheme ([None]: it finds one), and the ValueError of [urlparse] when
      the host of the request is taken from the URL *)
  unknown_url_type : string -> option exn;
  request_host_error : string -> option exn;
  (** the target of a redirect: what urlparse, urlunparse, quote and
      urljoin make of the URL of the request and the text of the header *)
  redirect_url : string -> string -> redirect_target;
  (** what the n-th exchange with the network does with the request that
      goes out *)
  net : nat -> request -> exchange_result;
  (** what the n-th reading of the clock shows *)
  clock : nat -> Z;
  (** whether the n-th sleep runs to its end ([None]) or is cut by a signal *)
  nap : nat -> option signal
}.

(** A value together with the fact that it is the value of [x]. *)
Definition inspect {A : Type} (x : A) : { y : A | x = y } := exist _ x eq_refl.

Section Client.

Context {cfg : Config} {env : Platform}.

(** [str(v)], as an f-string renders a value. *)
Definition py_str (v : value) : string :=
  match v with
  | VStr s => s
  | VInt z => pretty z
  | VNone => "None"
  | VBool true => "True"
  | VBool false => "False"
  | _ => repr_compound v
  end.

(** [datetime.now()] *)
Definition now : M Z :=
  fun w =>
    (World (console w) (sent w) (S (ticks w)) (slept w) (delivered w),
     Return (clock (ticks w))).

Definition timestamp : M string :=
  t <- now ;; ret ("[" ++ strftime_HMS t ++ "]").

Definition log (level message : string) : M unit :=
  stamp <- timestamp ;; print (stamp ++ " " ++ level ++ ": " ++ message).

Definition log_error (context : string) (error : exn) : M unit :=
  log "ERROR" (context ++ ": " ++ exn_str error) ;;
  match exn_response error with
  | Some r =>
      if truthy r then log "ERROR" ("Server response: " ++ py_str r) else ret tt
  | None => ret tt
  end ;;
  match exn_traceback error with
  | Some tb =>
      if truthy (opt_str environ_DEBUG) then log "ERROR" (py_str tb) else ret tt
  | None => ret tt
  end.

(** [sys.exit(code)] *)
Definition sys_exit {A} (code : Z) : M A := fun w => (w, Abort (SystemExit code)).

(** [handle_signal(signum, frame)]; neither argument is read. *)
Definition handle_signal {A} (signum : signal) : M A :=
  log "INFO" "Received termination signal. Shutting down..." ;;
  log "INFO" "DDNS client stopped" ;;
  sys_exit 0.

(** A termination signal arrives: the interpreter runs the registered
    handler, [handle_signal] for both SIGINT and SIGTERM, inside whatever
    call was blocking. *)
Definition deliver {A} (s : signal) : M A :=
  fun w =>
    handle_signal s
      (World (console w) (sent w) (ticks w) (slept w) (delivered w ++ [s])).

(** [fp.read()], the bytes dropped *)
Definition read (fp : body_read exn) : M unit :=
  match fp with
  | ReadText _ | Undecodable _ => ret tt
  | ReadFails e => raise e
  | ReadInterrupted s => deliver s
  end.

(** [fp.read().decode('utf-8')] *)
Definition read_decode (fp : body_read exn) : M string :=
  match fp with
  | ReadText text => ret text
  | Undecodable e => raise e
  | ReadFails e => raise e
  | ReadInterrupted s => deliver s
  end.

(** [time.sleep(seconds)] *)
Definition sleep (seconds : Z) : M unit :=
  fun w =>
    match nap (length (slept w)) with
    | None =>
        (World (console w) (sent w) (ticks w) (slept w ++ [seconds]) (delivered w),
         Return tt)
    | Some s => deliver s w
    end.

(** *** urllib.request

    [Request] and the default opener, as far as the script drives them. *)

(** [req.add_header(key, val)] *)
Definition add_header (key val : string) (req : request) : request :=
  Req (req_url req) (hd_set (capitalize key) val (req_headers req))
      (req_method req) (req_data req).

(** [Request(url, headers=headers, method=method)] when [host_known] is
    false, and [Request(url, headers=headers, origin_req_host=...)] when it
    is true.  The URL is parsed first and must have a scheme; the headers
    are added one by one; without [origin_req_host] the host is then taken
    from the URL; the attribute [method] is set for a method that is not
    empty. *)
Definition Request (url : string) (headers : header_dict) (host_known : bool)
    (method : string) : fallible request :=
  match unknown_url_type url with
  | Some e => Throws e
  | None =>
      let req :=
        fold_left (fun req kv => add_header (fst kv) (snd kv) req) headers
                  (Req url [] None NoData) in
      match (if host_known then None else request_host_error url) with
      | Some e => Throws e
      | None =>
          Gives (Req (req_url req) (req_headers req)
                     (if nonempty method then Some method else None)
                     (req_data req))
      end
  end.

(** [req.data = data] for a [data] that is not [None]: the setter also
    removes a Content-length header. *)
Definition set_data (data : payload) (req : request) : request :=
  Req (req_url req) (hd_pop "Content-length" (req_headers req))
      (req_method req) data.

(** [req.get_method()] *)
Definition get_method (req : request) : string :=
  match req_method req with
  | Some method => method
  | None => match req_data req with NoData => "GET" | _ => "POST" end
  end.

(** [HTTPError(url, code, msg, hdrs, fp)]; its [str] is made of the code
    and the message. *)
Definition http_error (code : Z) (msg : string) (hdrs : message)
    (fp : body_read exn) : exn :=
  new_exn (HTTPError code hdrs fp) ("HTTP Error " ++ pretty code ++ ": " ++ msg).

(** One exchange: the request goes out and the network answers. *)
Definition exchange (req : request) : M http_response :=
  fun w =>
    let w1 := World (console w) (sent w ++ [req]) (ticks w) (slept w) (delivered w) in
    match net (length (sent w)) req with
    | Replied r => (w1, Return r)
    | Fails e => (w1, Raise e)
    | Interrupted s => deliver s w1
    end.

(** The status codes [HTTPRedirectHandler] has a method for. *)
Definition redirect_code (code : Z) : bool :=
  (code =? 301)%Z || (code =? 302)%Z || (code =? 303)%Z
  || (code =? 307)%Z || (code =? 308)%Z.

(** The headers a redirected request does not take over. *)
Definition content_header (name : string) : bool :=
  bool_decide (lower name = "content-length")
  || bool_decide (lower name = "content-type").

(** [HTTPRedirectHandler.redirect_request]: a GET or HEAD is redirected on
    301, 302, 303, 307 and 308, a POST on 301, 302 and 303; the new request
    is for [newurl], with the headers of the old one but those of the
    content, and has neither data nor a method of its own. *)
Definition redirect_request (req : request) (fp : body_read exn) (code : Z)
    (msg : string) (headers : message) (newurl : string) : fallible request :=
  let m := get_method req in
  if negb (redirect_code code
             && (bool_decide (m = "GET") || bool_decide (m = "HEAD"))
           || ((code =? 301)%Z || (code =? 302)%Z || (code =? 303)%Z)
              && bool_decide (m = "POST"))
  then Throws (http_error code msg headers fp)
  else
    let newurl := replace_spaces newurl in
    let newheaders :=
      List.filter (fun kv => negb (content_header (fst kv))) (req_headers req) in
    Request newurl newheaders true "".

Definition inf_msg : string :=
  "The HTTP server returned a redirect error that would lead to an infinite loop."
  ++ newline ++ "The last 30x error message was:" ++ newline.

(** [visited.get(newurl, 0)] *)
Definition visits (visited : gmap string nat) (newurl : string) : nat :=
  default 0%nat (visited !! newurl).

(** [HTTPRedirectHandler.http_error_302], up to the call that opens the new
    request: [None] when the handler leaves the response to the next one
    (no Location and no URI header).  [visited] is the [redirect_dict] of
    the request, [None] when it has none yet; a target is refused the fifth
    time and any target once ten are in the dictionary. *)
Definition http_error_302 (req : request) (visited : option (gmap string nat))
    (response : http_response) (code : Z)
  : M (option (request * gmap string nat)) :=
  let fp := resp_body response in
  let msg := reason response in
  let headers := resp_headers response in
  match (if msg_contains headers "location" then msg_get headers "location"
         else if msg_contains headers "uri" then msg_get headers "uri"
         else None) with
  | None => ret None
  | Some location =>
      match redirect_url (req_url req) location with
      | Malformed e => raise e
      | NotAllowed =>
          raise (http_error code
                   (msg ++ " - Redirection to url '" ++ location ++ "' is not allowed")
                   headers fp)
      | Target newurl =>
          new <- lift (redirect_request req fp code msg headers newurl) ;;
          visited <-
            match visited with
            | Some visited =>
                if (4 <=? visits visited newurl)%nat || (10 <=? size visited)%nat
                then raise (http_error code (inf_msg ++ msg) headers fp)
                else ret visited
            | None => ret ∅
            end ;;
          let visited := <[ newurl := S (visits visited newurl) ]> visited in
          read fp ;;
          ret (Some (new, visited))
      end
  end.

(** [OpenerDirector.open] up to the point where a redirect opens the new
    request: the exchange, then [HTTPErrorProcessor.http_response].  A
    response without a status (no HTTP) or with a 2xx status is handed
    back; any other goes to the error handlers: the redirect handler for
    its codes, then [HTTPDefaultErrorHandler], which raises. *)
Definition opener_turn (req : request) (visited : option (gmap string nat))
  : M hop :=
  response <- exchange req ;;
  match status response with
  | None => ret (Arrived response)
  | Some code =>
      if (200 <=? code)%Z && (code <? 300)%Z then ret (Arrived response)
      else
        handled <-
          (if redirect_code code then http_error_302 req visited response code
           else ret None) ;;
        match handled with
        | Some (new, visited) => ret (Redirected new visited)
        | None =>
            raise (http_error code (reason response) (resp_headers response)
                     (resp_body response))
        end
  end.

(** How many redirects the handler can still follow: each target of the
    dictionary up to four times, new targets as long as fewer than ten are
    in it. *)
Definition slack (visited : gmap string nat) : nat :=
  map_fold (fun _ seen room => (4 - seen + room)%nat) 0%nat visited.

Definition redirect_room (visited : option (gmap string nat)) : nat :=
  match visited with
  | None => 37
  | Some visited =>
      if (size visited <? 10)%nat
      then (slack visited + 4 * (9 - size visited) + 1)%nat
      else 0%nat
  end.

Lemma slack_insert_new (visited : gmap string nat) url seen :
  visited !! url = None ->
  slack (<[ url := seen ]> visited) = (4 - seen + slack visited)%nat.
Proof.
  intros Hnew. unfold slack.
  rewrite map_fold_insert_L; [reflexivity | | exact Hnew].
  intros. lia.
Qed.

Lemma slack_insert_old (visited : gmap string nat) url seen seen' :
  visited !! url = Some seen ->
  (slack (<[ url := seen' ]> visited) + (4 - seen) = slack visited + (4 - seen'))%nat.
Proof.
  intros Hold.
  rewrite <- (insert_delete_eq visited url seen').
  rewrite <- (insert_delete_id visited url seen Hold) at 2.
  rewrite !slack_insert_new by apply lookup_delete_eq. lia.
Qed.

(** Following a redirect uses up room. *)
Lemma redirect_room_next (visited : gmap string nat) url :
  (visits visited url < 4)%nat ->
  (size visited < 10)%nat ->
  (redirect_room (Some (<[ url := S (visits visited url) ]> visited))
   < redirect_room (Some visited))%nat.
Proof.
  intros Hseen Hsize. unfold redirect_room, visits in *.
  destruct (visited !! url) as [seen |] eqn:Hlook; simpl in Hseen |- *.
  - rewrite map_size_insert_Some by (rewrite Hlook; eauto).
    pose proof (slack_insert_old visited url seen (S seen) Hlook) as Hslack.
    destruct (size visited <? 10)%nat eqn:Hlt; [| apply Nat.ltb_ge in Hlt; lia].
    lia.
  - rewrite map_size_insert_None by exact Hlook.
    rewrite (slack_insert_new _ _ _ Hlook).
    destruct (size visited <? 10)%nat eqn:Hlt; [| apply Nat.ltb_ge in Hlt; lia].
    destruct (S (size visited) <? 10)%nat eqn:Hlt'; [| lia].
    apply Nat.ltb_lt in Hlt'. lia.
Qed.

Lemma redirect_room_first url :
  (redirect_room (Some (<[ url := S (visits ∅ url) ]> ∅)) < redirect_room None)%nat.
Proof.
  unfold visits. rewrite lookup_empty. simpl default.
  unfold redirect_room.
  rewrite map_size_insert_None by apply lookup_empty. rewrite map_size_empty.
  rewrite (slack_insert_new _ _ _ (lookup_empty url)).
  unfold slack. rewrite map_fold_empty. simpl. lia.
Qed.

(** A turn of the opener that ends in a redirect leaves less room. *)
Lemma opener_turn_redirected req visited w w' new visited' :
  opener_turn req visited w = (w', Return (Redirected new visited')) ->
  (redirect_room (Some visited') < redirect_room visited)%nat.
Proof.
  unfold opener_turn, bind.
  destruct (exchange req w) as [w1 [response | e | b]]; try discriminate.
  destruct (status response) as [code |]; [| discriminate].
  destruct ((200 <=? code)%Z && (code <? 300)%Z); [discriminate |].
  destruct (redirect_code code); [| discriminate].
  unfold http_error_302.
  destruct (if msg_contains _ "location" then _ else _) as [location |];
    [| discriminate].
  destruct (redirect_url (req_url req) location) as [newurl | | e];
    try discriminate.
  unfold bind.
  destruct (lift (redirect_request _ _ _ _ _ newurl) w1) as [w2 [new' | e | b]];
    try discriminate.
  destruct visited as [visited |].
  - destruct ((4 <=? visits visited newurl)%nat || (10 <=? size visited)%nat) eqn:Hfull;
      [discriminate |].
    apply orb_false_elim in Hfull as [Hseen Hsize].
    apply Nat.leb_gt in Hseen, Hsize.
    unfold ret.
    destruct (read (resp_body response) w2) as [w3 [[] | e | b]]; try discriminate.
    intros [= _ _ <-]. now apply redirect_room_next.
  - unfold ret.
    destruct (read (resp_body response) w2) as [w3 [[] | e | b]]; try discriminate.
    intros [= _ _ <-]. apply redirect_room_first.
Qed.

(** [OpenerDirector.open]: the turns of the opener until one hands back a
    response, raises or is cut short.  It is total: the redirect handler
    follows a redirect only while there is room. *)
Equations? opener_open (req : request) (visited : option (gmap string nat))
    (w : world) : world * outcome http_response
    by wf (redirect_room visited) lt :=
  opener_open req visited w with inspect (opener_turn req visited w) := {
    | exist _ (pair w' (Return (Redirected new visited'))) Hturn =>
        opener_open new (Some visited') w'
    | exist _ (pair w' (Return (Arrived response))) _ => (w', Return response)
    | exist _ (pair w' (Raise e)) _ => (w', Raise e)
    | exist _ (pair w' (Abort b)) _ => (w', Abort b) }.
Proof.
  exact (opener_turn_redirected _ _ _ _ _ _ Hturn).
Qed.

(** [urlopen(req)] for a request fresh from [Request]: it has no
    [redirect_dict]. *)
Definition urlopen (req : request) : M http_response := opener_open req None.

(** *** make_request *)

(** Lines 86-92 and again 100-106: the text of a body as a value.  Only
    [JSONDecodeError] is caught. *)
Definition parse_body (response_data : string) : fallible value :=
  if nonempty (strip response_data) then
    match json_loads response_data with
    | Gives v => Gives v
    | Throws e =>
        match exn_class_of e with
        | JSONDecodeError => Gives (VDict {[ "data" := VStr response_data ]})
        | _ => Throws e
        end
    end
  else Gives (VDict ∅).

(** Lines 55-68: the request of one iteration, with [headers] and [data] as
    the iteration leaves them for the next one. *)
Definition build_request (url method : string) (headers : option header_dict)
    (data : payload) : fallible (request * header_dict * payload) :=
  let headers := default [] headers in
  match Request url headers false method with
  | Throws e => Throws e
  | Gives req =>
      if payload_truthy data then
        match data with
        | Obj (VDict d) =>
            match json_dumps (VDict d) with
            | Throws e => Throws e
            | Gives text =>
                let data := Bytes (encode_utf8 text) in
                let req :=
                  if hd_has "Content-Type" headers then req
                  else add_header "Content-Type" "application/json" req in
                Gives (set_data data req, headers, data)
            end
        | Obj (VStr s) =>
            let data := Bytes (encode_utf8 s) in
            Gives (set_data data req, headers, data)
        | _ => Gives (set_data data req, headers, data)
        end
      else Gives (req, headers, data)
  end.

(** Line 74: whether the response is a redirect to follow.  A response
    without a status cannot be compared with 300. *)
Definition is_redirect (response : http_response) : fallible bool :=
  match status response with
  | None =>
      Throws (new_exn TypeError
                "'<=' not supported between instances of 'int' and 'NoneType'")
  | Some code =>
      Gives ((300 <=? code)%Z && (code <? 400)%Z
             && msg_contains (resp_headers response) "Location")
  end.

(** Line 79: [response.headers['Location']] (a string, on a redirect). *)
Definition location (response : http_response) : string :=
  default "" (msg_get (resp_headers response) "Location").

(** Lines 71-92: the body of the [try]. *)
Definition try_body (req : request) (headers : header_dict)
    (data : payload) (redirect_count max_redirects : Z) : M next :=
  response <- urlopen req ;;
  redirect <- lift (is_redirect response) ;;
  if redirect then
    if (redirect_count >=? max_redirects)%Z
    then raise (new_exn Exception "Too many redirects")
    else ret (Follow (location response) (Some headers) data)
  else
    response_data <- read_decode (resp_body response) ;;
    v <- lift (parse_body response_data) ;;
    ret (Done v).

(** Lines 94-116: [except HTTPError as e]. *)
Definition except_HTTPError {A} (e : exn) (code : Z) (hdrs : message)
    (fp : body_read exn) : M A :=
  let error_message := "Request failed with status " ++ pretty code in
  error_response <-
    try_bare (response_data <- read_decode fp ;; lift (parse_body response_data))
             (ret (VDict ∅)) ;;
  let e := set_response e
             (VDict {[ "status" := VInt code;
                       "data" := error_response;
                       "headers" := VDict (msg_dict hdrs) ]}) in
  raise (from_cause (new_exn Exception error_message) e).

(** Lines 118-119: [except URLError as e]. *)
Definition except_URLError {A} (e : exn) : M A :=
  raise (from_cause (new_exn Exception ("Request failed: " ++ exn_str e)) e).

(** The two [except] clauses of the [try] in order; any other exception
    leaves the function. *)
Definition with_handlers {A} (m : M A) : M A :=
  fun w =>
    match m w with
    | (w', Raise e) =>
        match exn_class_of e with
        | HTTPError code hdrs fp => except_HTTPError e code hdrs fp w'
        | URLError => except_URLError e w'
        | _ => (w', Raise e)
        end
    | r => r
    end.

(** One turn of [while True]. *)
Definition iteration (method : string) (max_redirects : Z) (url : string)
    (headers : option header_dict) (data : payload)
    (redirect_count : Z) : M next :=
  built <- lift (build_request url method headers data) ;;
  let '(req, headers, data) := built in
  with_handlers (try_body req headers data redirect_count max_redirects).

(** A redirect is followed only below the cap. *)
Lemma iteration_follow_below_cap method max_redirects url headers data
    redirect_count w w' url' headers' data' :
  iteration method max_redirects url headers data redirect_count w
    = (w', Return (Follow url' headers' data')) ->
  (redirect_count < max_redirects)%Z.
Proof.
  unfold iteration, bind.
  destruct (lift (build_request url method headers data) w)
    as [w0 [[[req hs] d] | e | b]]; try discriminate.
  unfold with_handlers, try_body, bind.
  destruct (urlopen req w0) as [w1 [response | e | b]].
  - destruct (lift (is_redirect response) w1) as [w1' [[] | e | b]].
    + destruct (redirect_count >=? max_redirects)%Z eqn:Hcap.
      * unfold raise; simpl; discriminate.
      * intros _. rewrite Z.geb_leb in Hcap. apply Z.leb_gt in Hcap. exact Hcap.
    + destruct (read_decode (resp_body response) w1') as [w2 [text | e | b]].
      * destruct (lift (parse_body text) w2) as [w3 [v | e | b]];
          simpl; try discriminate.
        destruct (exn_class_of e);
          unfold except_HTTPError, except_URLError, bind, raise; try discriminate.
        destruct (try_bare _ _ w3) as [w4 [v | e' | b]]; discriminate.
      * simpl. destruct (exn_class_of e);
          unfold except_HTTPError, except_URLError, bind, raise; try discriminate.
        destruct (try_bare _ _ w2) as [w3 [v | e' | b]]; discriminate.
      * discriminate.
    + destruct (exn_class_of e);
        unfold except_HTTPError, except_URLError, bind, raise; try discriminate.
      destruct (try_bare _ _ w1') as [w3 [v | e' | b]]; discriminate.
    + discriminate.
  - destruct (exn_class_of e); unfold except_HTTPError, except_URLError, bind, raise;
      try discriminate.
    destruct (try_bare _ _ w1) as [w3 [v | e' | b]]; discriminate.
  - discriminate.
Qed.

(** Lines 52-121: the loop, from the iteration that starts with
    [redirect_count].  It is total: each further turn has a larger
    [redirect_count], below [max_redirects]. *)
Equations? make_request_loop (method : string) (max_redirects : Z)
    (url : string) (headers : option header_dict) (data : payload)
    (redirect_count : Z) (w : world) : world * outcome value
    by wf (Z.to_nat (max_redirects - redirect_count)) lt :=
  make_request_loop method max_redirects url headers data redirect_count w
    with inspect (iteration method max_redirects url headers data redirect_count w) := {
    | exist _ (pair w' (Return (Follow url' headers' data'))) Hturn =>
        make_request_loop method max_redirects url' headers' data'
          (redirect_count + 1) w'
    | exist _ (pair w' (Return (Done v))) _ => (w', Return v)
    | exist _ (pair w' (Raise e)) _ => (w', Raise e)
    | exist _ (pair w' (Abort b)) _ => (w', Abort b) }.
Proof.
  apply iteration_follow_below_cap in Hturn. lia.
Qed.

Definition make_request (url method : string)
    (headers : option header_dict) (data : payload)
    (max_redirects : Z) : M value :=
  make_request_loop method max_redirects url headers data 0.

(** *** The update cycle *)

Definition get_current_ip : M value :=
  try_except
    (log "INFO" "Detecting public IP address..." ;;
     response <- make_request (SERVER_URL ++ "/api/ip") "GET" None NoData 5 ;;
     ip <- getitem response "ip" ;;
     log "INFO" ("Successfully detected IP: " ++ py_str ip) ;;
     getitem response "ip")
    (fun error =>
       log_error "Failed to detect IP address" error ;;
       raise (new_exn Exception "Failed to detect IP address")).

Definition update_dns (ip : value) : M value :=
  try_except
    (log "INFO" ("Updating DNS record for " ++ DOMAIN ++ " to " ++ py_str ip ++ "...") ;;
     let headers : header_dict :=
       [ ("Authorization", "Bearer " ++ TOKEN);
         ("Content-Type", "application/json") ] in
     response <- make_request (SERVER_URL ++ "/api/dns/update") "POST"
                   (Some headers) (Obj (VDict {[ "ip" := ip ]})) 5 ;;
     success <- dict_get response "success" VNone ;;
     (if truthy success then
        result <- dict_get response "result" (VDict ∅) ;;
        unchanged <-
          (if truthy result then
             status <- dict_get result "status" VNone ;;
             ret (eq_str status "unchanged")
           else ret false) ;;
        if unchanged
        then log "INFO" ("DNS record is already up-to-date (" ++ py_str ip ++ ")")
        else log "INFO" ("DNS record updated successfully to " ++ py_str ip)
      else ret tt) ;;
     ret response)
    (fun error =>
       log_error "Failed to update DNS record" error ;;
       raise error).
Definition check_and_update_ip : M unit :=
  try_except
    (current_ip <- get_current_ip ;;
     result <- update_dns current_ip ;;
     t <- now ;;
     let next_check_time := strftime_HMS (t + UPDATE_INTERVAL) in
     log "INFO" ("Next check scheduled at " ++ next_check_time))
    (fun error =>
       log "ERROR" ("Update cycle failed: " ++ exn_str error) ;;
       log "INFO" ("Will retry in " ++ interval_minutes ++ " minutes")).

(** *** The main loop *)

(** Lines 196-205: one turn of the main loop. *)
Definition cycle : M unit :=
  try_except
    (check_and_update_ip ;;
     sleep UPDATE_INTERVAL)
    (fun e =>
       log_error "Uncaught exception" e ;;
       log "ERROR" "An unexpected error occurred. Client will attempt to continue..." ;;
       sleep UPDATE_INTERVAL).

(** Lines 187-191: the startup banner. *)
Definition banner : M unit :=
  log "INFO" "========================================" ;;
  log "INFO" ("DDNS client starting for domain: " ++ DOMAIN) ;;
  log "INFO" ("Server URL: " ++ SERVER_URL) ;;
  log "INFO" ("Update interval: " ++ interval_minutes ++ " minutes") ;;
  log "INFO" "========================================".

(** The process while the main loop runs: between two turns of the loop, or
    gone with an exit code. *)
Inductive process : Type :=
| Looping (w : world)
| Exited (w : world) (code : Z).

(** How the interpreter ends the process once the program is left with
    outcome [o]: code 0 at the end of the script, the code of a
    [SystemExit], code 1 after the traceback of an uncaught exception, and
    code 130 after an uncaught [KeyboardInterrupt]. *)
Definition exit_with {A} (r : world * outcome A) : process :=
  match r with
  | (w, Return _) => Exited w 0
  | (w, Raise _) => Exited w 1
  | (w, Abort (SystemExit code)) => Exited w code
  | (w, Abort KeyboardInterrupt) => Exited w 130
  end.

(** Lines 194 and 206-207: what leaves [while True] leaves the [try]
    around it, whose one clause hands a [KeyboardInterrupt] to
    [handle_signal]. *)
Definition leave (r : world * outcome unit) : process :=
  match r with
  | (w, Abort KeyboardInterrupt) => exit_with (handle_signal (A := unit) SIGINT w)
  | _ => exit_with r
  end.

(** One turn of [while True], seen from outside: the loop goes on when the
    turn returns, and is left otherwise. *)
Definition main_step (w : world) : process :=
  match cycle w with
  | (w', Return _) => Looping w'
  | r => leave r
  end.

(** The states the process reaches from a given one. *)
Inductive reaches : process -> process -> Prop :=
| reaches_here p : reaches p p
| reaches_turn w q : reaches (main_step w) q -> reaches (Looping w) q.

(** The process after at most [n] turns of the main loop. *)
Fixpoint run (n : nat) (w : world) : process :=
  match n with
  | O => Looping w
  | S k =>
      match main_step w with
      | Looping w' => run k w'
      | Exited w' code => Exited w' code
      end
  end.

(** *** Words for the properties *)

(** The line a call of [log] prints, and the world it leaves. *)
Definition log_line (level message : string) (w : world) : string :=
  ("[" ++ strftime_HMS (clock (ticks w)) ++ "]") ++ " " ++ level ++ ": " ++ message.

Definition logged (level message : string) (w : world) : world :=
  World (console w ++ [log_line level message w]) (sent w) (S (ticks w))
        (slept w) (delivered w).

(** The world once [req] went out. *)
Definition pushed (req : request) (w : world) : world :=
  World (console w) (sent w ++ [req]) (ticks w) (slept w) (delivered w).

(** What the two log lines of the failure branch leave behind. *)
Definition retry_logged (error : exn) (w : world) : world :=
  logged "INFO" "Will retry in 5.0 minutes"
    (logged "ERROR" ("Update cycle failed: " ++ exn_str error) w).

(** Lines 139-142: the headers update_dns passes. *)
Definition update_headers : header_dict :=
  [ ("Authorization", "Bearer " ++ TOKEN); ("Content-Type", "application/json") ].

(** Lines 143-148: the request update_dns makes. *)
Definition update_call (ip : value) : M value :=
  make_request (SERVER_URL ++ "/api/dns/update") "POST"
    (Some [ ("Authorization", "Bearer " ++ TOKEN);
            ("Content-Type", "application/json") ])
    (Obj (VDict {[ "ip" := ip ]})) 5.

Definition updating (ip : value) (w : world) : world :=
  logged "INFO" ("Updating DNS record for " ++ DOMAIN ++ " to " ++ py_str ip ++ "...") w.

(** A computation is calm when it completes no sleep, loses no record of a
    delivered signal, and unwinds only with [SystemExit(0)] after a signal
    was delivered to it. *)
Definition calm {A} (m : M A) : Prop :=
  forall w w' o, m w = (w', o) ->
    slept w' = slept w /\
    (length (delivered w) <= length (delivered w'))%nat /\
    match o with
    | Abort b =>
        b = SystemExit 0 /\ (length (delivered w) < length (delivered w'))%nat
    | _ => True
    end.

(** A computation in which no request goes out. *)
Definition offline {A} (m : M A) : Prop :=
  forall w w' o, m w = (w', o) -> sent w' = sent w.


(** The sleeps between two states of the process are whole turns of
    [UPDATE_INTERVAL] seconds each; the process is gone only with code 0 and
    only after a signal more than before. *)
Definition after_turns (w : world) (p : process) : Prop :=
  match p with
  | Looping w' =>
      (exists n, slept w' = (slept w ++ repeat UPDATE_INTERVAL n)%list)
      /\ (length (delivered w) <= length (delivered w'))%nat
  | Exited w' code =>
      code = 0
      /\ (length (delivered w) < length (delivered w'))%nat
      /\ (exists n, slept w' = (slept w ++ repeat UPDATE_INTERVAL n)%list)
  end.

(** The line [log] prints at the n-th reading of the clock. *)
Definition line_at (n : nat) (level message : string) : string :=
  ("[" ++ strftime_HMS (clock n) ++ "]") ++ " " ++ level ++ ": " ++ message.

(** [e] is of a class neither [except] clause of make_request names. *)
Definition passes_handlers (e : exn) : bool :=
  match exn_class_of e with
  | HTTPError _ _ _ | URLError => false
  | _ => true
  end.

(** Lines 110-114: the dict make_request sets as [e.response]. *)
Definition error_record (code : Z) (hdrs : message) (error_response : value) : value :=
  VDict {[ "status" := VInt code;
           "data" := error_response;
           "headers" := VDict (msg_dict hdrs) ]}.

(** A computation in which between [lo] and [hi] requests go out. *)
Definition requests_within {A} (lo hi : nat) (m : M A) : Prop :=
  forall w w' o, m w = (w', o) ->
    exists issued,
      sent w' = (sent w ++ issued)%list /\ (lo <= length issued <= hi)%nat.

(** The world once a termination signal was delivered and [handle_signal]
    has logged its two lines. *)
Definition signalled (s : signal) (w : world) : world :=
  logged "INFO" "DDNS client stopped"
    (logged "INFO" "Received termination signal. Shutting down..."
       (World (console w) (sent w) (ticks w) (slept w) (delivered w ++ [s]))).

(** Lines 98-108: the body of an HTTP error as make_request decodes it (the
    empty dict when reading, decoding or json.loads fails in any way), and
    the world after the attempt to read it. *)
Definition error_body (fp : body_read exn) : value :=
  match fp with
  | ReadText response_data =>
      match parse_body response_data with
      | Gives v => v
      | Throws _ => VDict ∅
      end
  | _ => VDict ∅
  end.

Definition after_error_read (fp : body_read exn) (w : world) : world :=
  match fp with
  | ReadInterrupted s => signalled s w
  | _ => w
  end.

(** Lines 96-116: the error make_request raises for the HTTPError [e]. *)
Definition status_error (e : exn) (code : Z) (hdrs : message)
    (fp : body_read exn) : exn :=
  from_cause (new_exn Exception ("Request failed with status " ++ pretty code))
    (set_response e (error_record code hdrs (error_body fp))).

(** Lines 118-119: the error make_request raises for the URLError [e]. *)
Definition transport_error (e : exn) : exn :=
  from_cause (new_exn Exception ("Request failed: " ++ exn_str e)) e.

(** Lines 139-148: the request update_dns starts with, [text] being the
    JSON text of the body. *)
Definition update_request (text : string) : request :=
  Req (SERVER_URL ++ "/api/dns/update")
    [ ("Authorization", "Bearer " ++ TOKEN); ("Content-type", "application/json") ]
    (Some "POST") (Bytes (encode_utf8 text)).

(** Line 128: the request get_current_ip starts with. *)
Definition ip_request : request :=
  Req (SERVER_URL ++ "/api/ip") [] (Some "GET") NoData.

(** A request as the redirect handler of urllib builds it: for [url], with
    [headers], without data and without a method of its own. *)
Definition redirected_request (headers : header_dict) (url : string) : request :=
  Req url headers None NoData.

(** [Request] takes the URL. *)
Definition url_accepted (url : string) : Prop :=
  unknown_url_type url = None /\ request_host_error url = None.

(** The status is an error that no handler of the opener takes: not 2xx
    and none of the codes of the redirect handler. *)
Definition error_status (code : Z) : bool :=
  negb ((200 <=? code)%Z && (code <? 300)%Z) && negb (redirect_code code).

(** The status is 2xx. *)
Definition success_status (code : Z) : bool := (200 <=? code)%Z && (code <? 300)%Z.


(** The headers of a [Request] built with [headers]: each name
    capitalized, a later item replacing an earlier one of the same name. *)
Definition canon (headers : header_dict) : header_dict :=
  fold_left (fun hs kv => hd_set (capitalize (fst kv)) (snd kv) hs) headers [].

(** The headers a redirected request takes over. *)
Definition content_free (headers : header_dict) : header_dict :=
  List.filter (fun kv => negb (content_header (fst kv))) headers.

(** The headers of a [Request] as urllib keeps them: no name twice, every
    name capitalized. *)
Definition tidy (headers : header_dict) : Prop :=
  NoDup (map fst headers) /\ Forall (fun kv => capitalize (fst kv) = fst kv) headers.

(** Lines 82-92 for a response that urlopen handed back. *)
Definition answer_of (response : http_response) : M value :=
  lift (is_redirect response) ;;
  response_data <- read_decode (resp_body response) ;;
  lift (parse_body response_data).

(** The request loop as it runs: one turn. *)
Definition request_once (url method : string) (headers : option header_dict)
    (data : payload) : M value :=
  built <- lift (build_request url method headers data) ;;
  with_handlers (response <- urlopen (fst (fst built)) ;; answer_of response).

End Client.

(** * Scenarios

    Concrete oracles, for running the program above. *)

Module Scenario.

Definition w0 : world := World [] [] 0 [] [].

#[export] Instance served_at : Config :=
  {| TOKEN := "s3cret"; SERVER_URL := "https://ddns.example"; DOMAIN := "home.example.org" |}.

(** The script as it is in the repository, its placeholders not yet
    substituted. *)
Definition unserved : Config :=
  {| TOKEN := "__TOKEN__"; SERVER_URL := "__SERVER_URL__"; DOMAIN := "__DOMAIN__" |}.

Definition quoted (s : string) : string := dquote ++ s ++ dquote.

(** The bodies the scenarios use. *)
Definition ip_text : string :=
  "{" ++ quoted "ip" ++ ": " ++ quoted "203.0.113.7" ++ "}".
Definition error_text : string :=
  "{" ++ quoted "error" ++ ":" ++ quoted "db down" ++ "}".
Definition result_text (status : string) : string :=
  "{" ++ quoted "success" ++ ": true, " ++ quoted "result" ++ ": {"
  ++ quoted "status" ++ ": " ++ quoted status ++ "}}".

Definition result_value (status : string) : value :=
  VDict {[ "success" := VBool true;
           "result" := VDict {[ "status" := VStr status ]} ]}.

(** A JSON text that is one integer of 5000 digits: more than [int] takes
    from a string. *)
Fixpoint sevens (n : nat) : string :=
  match n with
  | O => EmptyString
  | S k => String "7"%char (sevens k)
  end.
Definition long_number : string := sevens 5000.

Definition too_many_digits : exn :=
  new_exn ValueError
    ("Exceeds the limit (4300 digits) for integer string conversion: "
     ++ "value has 5000 digits; use sys.set_int_max_str_digits() to increase the limit").

Definition no_json : exn :=
  new_exn JSONDecodeError "Expecting value: line 1 column 1 (char 0)".

(** [json.loads] on the texts of the scenarios; every other text it
    rejects as no JSON, as [json.loads] does the ones the scenarios use
    besides. *)
Definition loads (s : string) : fallible value :=
  if bool_decide (s = ip_text) then Gives (VDict {[ "ip" := VStr "203.0.113.7" ]})
  else if bool_decide (s = error_text) then Gives (VDict {[ "error" := VStr "db down" ]})
  else if bool_decide (s = result_text "unchanged") then Gives (result_value "unchanged")
  else if bool_decide (s = result_text "ok") then Gives (result_value "ok")
  else if bool_decide (s = long_number) then Throws too_many_digits
  else Throws no_json.

(** [json.dumps] on the bodies update_dns sends. *)
Definition dumps (v : value) : fallible string :=
  match v with
  | VDict d =>
      match d !! "ip" with
      | Some (VStr s) => Gives ("{" ++ quoted "ip" ++ ": " ++ quoted s ++ "}")
      | _ => Gives "{}"
      end
  | _ => Gives "null"
  end.

(** Whether urllib finds a scheme in a URL without blanks, brackets and
    fragment: a colon after at least one character, none of them a slash. *)
Fixpoint has_scheme (url : string) (some : bool) : bool :=
  match url with
  | EmptyString => false
  | String c rest =>
      if (N_of_ascii c =? 58)%N then some
      else if (N_of_ascii c =? 47)%N then false
      else has_scheme rest true
  end.

Definition url_type_error (url : string) : option exn :=
  if has_scheme url false then None
  else Some (new_exn ValueError ("unknown url type: '" ++ url ++ "'")).

Definition refused : exn :=
  new_exn URLError "<urlopen error [Errno 111] Connection refused>".

(** The network answers the n-th exchange with the n-th entry of [script]
    and refuses the connection after that; the n-th reading of the clock is
    n seconds past 13:03:20.  The targets of the redirects in the scenarios
    are absolute http URLs, which urllib takes as they are. *)
Definition scripted (decode : string -> fallible value)
    (script : list exchange_result) (naps : nat -> option signal) : Platform :=
  {| json_loads := decode;
     json_dumps := dumps;
     repr_compound := fun _ => "<object>";
     environ_DEBUG := None;
     unknown_url_type := url_type_error;
     request_host_error := fun _ => None;
     redirect_url := fun _ location => Target location;
     net := fun n _ => nth n script (Fails refused);
     clock := fun n => 47000 + Z.of_nat n;
     nap := naps |}.

Definition served (script : list exchange_result) (naps : nat -> option signal)
  : Platform := scripted loads script naps.

Definition no_signal : nat -> option signal := fun _ => None.

Definition ok_response (text : string) : http_response :=
  Response (Some 200) "OK" [("Content-Type", "application/json")] (ReadText text).

Definition redirect_to (url : string) : http_response :=
  Response (Some 302) "Found" [("Location", url)] (ReadText "").

(** HTTP 500 with the body {"error":"db down"}. *)
Definition server_error : http_response :=
  Response (Some 500) "Internal Server Error"
    [("Content-Type", "application/json")] (ReadText error_text).

Definition offline_env : Platform := served [] no_signal.
Definition two_hops : Platform :=
  served [Replied (redirect_to "https://a.example/api/ip");
          Replied (redirect_to "https://b.example/api/ip");
          Replied (ok_response ip_text)] no_signal.
Definition body_env (text : string) : Platform :=
  served [Replied (ok_response text)] no_signal.
Definition failing_env : Platform := served [Replied server_error] no_signal.
Definition interrupted_env : Platform :=
  served [] (fun n => if (n =? 2)%nat then Some SIGTERM else None).

(** Seven redirects, each to a mirror of its own, then the address. *)
Definition mirror (n : nat) : string :=
  "https://m" ++ pretty (Z.of_nat n) ++ ".example/api/ip".
Definition seven_hops : Platform :=
  served (map (fun n => Replied (redirect_to (mirror n))) (seq 1 7)
          ++ [Replied (ok_response ip_text)]) no_signal.


(** Further answers of the update endpoint, and a decoder that knows them
    besides the texts above. *)
Definition success_only_text : string := "{" ++ quoted "success" ++ ": true}".
Definition result_string_text : string :=
  "{" ++ quoted "success" ++ ": true, " ++ quoted "result" ++ ": " ++ quoted "done" ++ "}".

Definition loads_more (s : string) : fallible value :=
  if bool_decide (s = success_only_text)
  then Gives (VDict {[ "success" := VBool true ]})
  else if bool_decide (s = result_string_text)
  then Gives (VDict {[ "success" := VBool true; "result" := VStr "done" ]})
  else loads s.

Definition answering (script : list exchange_result) : Platform :=
  scripted loads_more script no_signal.

(** Errors that are neither HTTPError nor URLError. *)
Definition connection_reset : exn :=
  new_exn (OtherException "ConnectionResetError") "[Errno 104] Connection reset by peer".
Definition not_utf8 : exn :=
  new_exn (OtherException "UnicodeDecodeError")
          "'utf-8' codec can't decode byte 0xff in position 0: invalid start byte".

Definition reset_env : Platform := served [Fails connection_reset] no_signal.
Definition garbled_env : Platform :=
  served [Replied (Response (Some 200) "OK" [] (Undecodable not_utf8))] no_signal.
Definition redirected_env : Platform :=
  served [Replied (redirect_to "https://mirror.example/api/dns/update");
          Replied (ok_response (result_text "ok"))] no_signal.
Definition both_answer_env : Platform :=
  served [Replied (ok_response ip_text);
          Replied (ok_response (result_text "unchanged"))] no_signal.
Definition refusing_env : Platform :=
  served [Replied (ok_response ip_text); Replied server_error] no_signal.

(** The response urllib gives for a file: the content, and no status. *)
Definition file_env : Platform :=
  served [Replied (Response None "" [("Content-Length", "6")] (ReadText "hello"))] no_signal.

(** The URLs, the address and the two requests of the script in the
    scenarios. *)
Definition the_url : string := "https://ddns.example/api/ip".
Definition the_update_url : string := "https://ddns.example/api/dns/update".
Definition the_address : value := VStr "203.0.113.7".

Definition get_ip : request := Req the_url [] (Some "GET") NoData.
Definition post_update : request :=
  Req the_update_url
    [("Authorization", "Bearer s3cret"); ("Content-type", "application/json")]
    (Some "POST") (Bytes (encode_utf8 ip_text)).

End Scenario.


(** * Properties *)

Section Properties.

Context {cfg : Config} {env : Platform}.

(** The two loops, one turn unfolded. *)
Lemma opener_open_turn req visited w :
  opener_open req visited w =
  match opener_turn req visited w with
  | (w', Return (Redirected new visited')) => opener_open new (Some visited') w'
  | (w', Return (Arrived response)) => (w', Return response)
  | (w', Raise e) => (w', Raise e)
  | (w', Abort b) => (w', Abort b)
  end.
Proof.
  rewrite opener_open_equation_1.
  generalize (inspect (opener_turn req visited w)).
  intros [[w' [[r | new v] | e | b]] Hturn]; simpl; rewrite Hturn; reflexivity.
Qed.

Lemma make_request_loop_turn method max_redirects url headers data redirect_count w :
  make_request_loop method max_redirects url headers data redirect_count w =
  match iteration method max_redirects url headers data redirect_count w with
  | (w', Return (Follow url' headers' data')) =>
      make_request_loop method max_redirects url' headers' data' (redirect_count + 1) w'
  | (w', Return (Done v)) => (w', Return v)
  | (w', Raise e) => (w', Raise e)
  | (w', Abort b) => (w', Abort b)
  end.
Proof.
  rewrite make_request_loop_equation_1.
  generalize (inspect (iteration method max_redirects url headers data redirect_count w)).
  intros [[w' [[u h d | v] | e | b]] Hturn]; simpl; rewrite Hturn; reflexivity.
Qed.

(** *** What a log line does *)

Lemma log_returns level message w :
  log level message w = (logged level message w, Return tt).
Proof. reflexivity. Qed.

Lemma log_error_returns context error w :
  log_error context error w = (fst (log_error context error w), Return tt).
Proof.
  unfold log_error, bind. rewrite log_returns.
  destruct (exn_response error) as [r |]; [destruct (truthy r) |];
    destruct (exn_traceback error) as [tb |];
    try destruct (truthy (opt_str environ_DEBUG)); reflexivity.
Qed.

Lemma lift_runs {A} (r : fallible A) w :
  lift r w = (w, match r with Gives a => Return a | Throws e => Raise e end).
Proof. destruct r; reflexivity. Qed.

(** *** Sleeps and signals: every step but [sleep] is calm *)

Create HintDb calm discriminated.

Lemma calm_ret {A} (a : A) : calm (ret a).
Proof. intros w w' o [= <- <-]. auto. Qed.

Lemma calm_raise {A} (e : exn) : calm (raise (A := A) e).
Proof. intros w w' o [= <- <-]. auto. Qed.

Lemma calm_lift {A} (r : fallible A) : calm (lift r).
Proof. destruct r; [apply calm_ret | apply calm_raise]. Qed.

Lemma calm_bind {A B} (m : M A) (k : A -> M B) :
  calm m -> (forall a, calm (k a)) -> calm (bind m k).
Proof.
  intros Hm Hk w w' o. unfold bind.
  destruct (m w) as [w1 [a | e | b]] eqn:Hrun; specialize (Hm _ _ _ Hrun).
  - intros Hcont. specialize (Hk a _ _ _ Hcont).
    destruct Hm as (Hs & Hd & _), Hk as (Hs' & Hd' & Ho).
    repeat split; [congruence | lia |].
    destruct o; auto. destruct Ho; split; [assumption | lia].
  - intros [= <- <-]. tauto.
  - intros [= <- <-]. tauto.
Qed.

Lemma calm_try_except {A} (body : M A) (handler : exn -> M A) :
  calm body -> (forall e, calm (handler e)) -> calm (try_except body handler).
Proof.
  intros Hm Hk w w' o. unfold try_except.
  destruct (body w) as [w1 [a | e | b]] eqn:Hrun; specialize (Hm _ _ _ Hrun).
  - intros [= <- <-]. tauto.
  - intros Hcont. specialize (Hk e _ _ _ Hcont).
    destruct Hm as (Hs & Hd & _), Hk as (Hs' & Hd' & Ho).
    repeat split; [congruence | lia |].
    destruct o; auto. destruct Ho; split; [assumption | lia].
  - intros [= <- <-]. tauto.
Qed.

Lemma calm_try_bare {A} (body fallback : M A) :
  calm body -> calm fallback -> calm (try_bare body fallback).
Proof.
  intros Hm Hk w w' o. unfold try_bare.
  destruct (body w) as [w1 [a | e | b]] eqn:Hrun; specialize (Hm _ _ _ Hrun).
  - intros [= <- <-]. tauto.
  - intros Hcont. specialize (Hk _ _ _ Hcont).
    destruct Hm as (Hs & Hd & _), Hk as (Hs' & Hd' & Ho).
    repeat split; [congruence | lia |].
    destruct o; auto. destruct Ho; split; [assumption | lia].
  - intros Hcont. specialize (Hk _ _ _ Hcont).
    destruct Hm as (Hs & Hd & _), Hk as (Hs' & Hd' & Ho).
    repeat split; [congruence | lia |].
    destruct o; auto. destruct Ho; split; [assumption | lia].
Qed.

Lemma calm_log level message : calm (log level message).
Proof. intros w w' o. rewrite log_returns. intros [= <- <-]. simpl. auto. Qed.

Lemma calm_now : calm now.
Proof. intros w w' o [= <- <-]. simpl. auto. Qed.

#[local] Hint Resolve calm_ret calm_raise calm_lift calm_log calm_now : calm.
#[local] Hint Extern 2 (calm (bind _ _)) => apply calm_bind; [| intros ?] : calm.
#[local] Hint Extern 2 (calm (try_except _ _)) =>
  apply calm_try_except; [| intros ?] : calm.
#[local] Hint Extern 2 (calm (try_bare _ _)) => apply calm_try_bare : calm.
#[local] Hint Extern 3 (calm (if ?c then _ else _)) => destruct c : calm.
#[local] Hint Extern 3 (calm (match ?c with _ => _ end)) => destruct c : calm.

Lemma calm_log_error context error : calm (log_error context error).
Proof. unfold log_error. auto 10 with calm. Qed.

Lemma calm_deliver {A} (s : signal) : calm (deliver (A := A) s).
Proof.
  intros w w' o. unfold deliver, handle_signal, bind, sys_exit.
  rewrite !log_returns. intros [= <- <-]. simpl.
  rewrite length_app. simpl. repeat split; lia.
Qed.

Lemma calm_exchange req : calm (exchange req).
Proof.
  intros w w' o. unfold exchange.
  destruct (net (length (sent w)) req) as [r | e | s].
  - intros [= <- <-]. simpl. auto.
  - intros [= <- <-]. simpl. auto.
  - intros Hrun. apply calm_deliver in Hrun. exact Hrun.
Qed.

Lemma calm_read fp : calm (read fp).
Proof. destruct fp; simpl; auto using calm_deliver with calm. Qed.

Lemma calm_read_decode fp : calm (read_decode fp).
Proof. destruct fp; simpl; auto using calm_deliver with calm. Qed.

Lemma calm_getitem v key : calm (getitem v key).
Proof. unfold getitem. destruct v; auto with calm. Qed.

Lemma calm_dict_get v key dflt : calm (dict_get v key dflt).
Proof. unfold dict_get. destruct v; auto with calm. Qed.

#[local] Hint Resolve calm_log_error calm_deliver calm_exchange calm_read
  calm_read_decode calm_getitem calm_dict_get : calm.

Lemma calm_http_error_302 req visited response code :
  calm (http_error_302 req visited response code).
Proof.
  unfold http_error_302.
  destruct (if msg_contains _ "location" then _ else _) as [location |];
    [| apply calm_ret].
  destruct (redirect_url (req_url req) location) as [newurl | | e];
    [| apply calm_raise | apply calm_raise].
  apply calm_bind; [apply calm_lift | intros new].
  apply calm_bind.
  - destruct visited as [visited |]; [| apply calm_ret].
    destruct (_ || _); [apply calm_raise | apply calm_ret].
  - intros v. apply calm_bind; [apply calm_read | intros _; apply calm_ret].
Qed.

Lemma calm_opener_turn req visited : calm (opener_turn req visited).
Proof.
  unfold opener_turn.
  apply calm_bind; [apply calm_exchange | intros response].
  destruct (status response) as [code |]; [| apply calm_ret].
  destruct (_ && _); [apply calm_ret |].
  apply calm_bind.
  - destruct (redirect_code code); [apply calm_http_error_302 | apply calm_ret].
  - intros [[new v] |]; [apply calm_ret | apply calm_raise].
Qed.

Lemma calm_opener_open n :
  forall req visited,
    (redirect_room visited <= n)%nat -> calm (opener_open req visited).
Proof.
  induction n as [| n IH]; intros req visited Hn w w' o;
    rewrite opener_open_turn;
    destruct (opener_turn req visited w) as [w1 [[r | new v] | e | b]] eqn:Hturn;
    pose proof (calm_opener_turn _ _ _ _ _ Hturn) as (Hs & Hd & Ho);
    try (intros [= <- <-]; tauto).
  - apply opener_turn_redirected in Hturn. lia.
  - pose proof (opener_turn_redirected _ _ _ _ _ _ Hturn) as Hroom.
    intros Hrest. apply IH in Hrest; [| lia].
    destruct Hrest as (Hs' & Hd' & Ho').
    repeat split; [congruence | lia |].
    destruct o; auto. destruct Ho'; split; [assumption | lia].
Qed.

Lemma calm_urlopen req : calm (urlopen req).
Proof. unfold urlopen. eapply calm_opener_open. reflexivity. Qed.

#[local] Hint Resolve calm_urlopen : calm.

Lemma calm_except_HTTPError {A} e code hdrs fp :
  calm (except_HTTPError (A := A) e code hdrs fp).
Proof. unfold except_HTTPError. auto 10 with calm. Qed.

Lemma calm_with_handlers {A} (m : M A) : calm m -> calm (with_handlers m).
Proof.
  intros Hm w w' o. unfold with_handlers.
  destruct (m w) as [w1 [a | e | b]] eqn:Hrun; specialize (Hm _ _ _ Hrun).
  - intros [= <- <-]. tauto.
  - assert (Hhandled : forall h : M A, calm h -> h w1 = (w', o) ->
              slept w' = slept w /\
              (length (delivered w) <= length (delivered w'))%nat /\
              match o with
              | Abort b => b = SystemExit 0 /\
                           (length (delivered w) < length (delivered w'))%nat
              | _ => True
              end).
    { intros h Hh Hcont. specialize (Hh _ _ _ Hcont).
      destruct Hm as (Hs & Hd & _), Hh as (Hs' & Hd' & Ho).
      repeat split; [congruence | lia |].
      destruct o; auto. destruct Ho; split; [assumption | lia]. }
    destruct (exn_class_of e);
      first [ apply Hhandled, calm_except_HTTPError
            | apply Hhandled; unfold except_URLError; auto with calm
            | intros [= <- <-]; tauto ].
  - intros [= <- <-]. tauto.
Qed.

Lemma calm_iteration method max_redirects url headers data redirect_count :
  calm (iteration method max_redirects url headers data redirect_count).
Proof.
  unfold iteration.
  apply calm_bind; [apply calm_lift | intros [[req hs] d]].
  apply calm_with_handlers. unfold try_body. auto 10 with calm.
Qed.

Lemma calm_make_request_loop method max_redirects n :
  forall url headers data redirect_count,
    (Z.to_nat (max_redirects - redirect_count) <= n)%nat ->
    calm (make_request_loop method max_redirects url headers data redirect_count).
Proof.
  induction n as [| n IH]; intros url headers data redirect_count Hn w w' o;
    rewrite make_request_loop_turn;
    destruct (iteration method max_redirects url headers data redirect_count w)
      as [w1 [[u h d | v] | e | b]] eqn:Hturn;
    pose proof (calm_iteration _ _ _ _ _ _ _ _ _ Hturn) as (Hs & Hd & Ho);
    try (intros [= <- <-]; tauto).
  - apply iteration_follow_below_cap in Hturn. lia.
  - pose proof (iteration_follow_below_cap _ _ _ _ _ _ _ _ _ _ _ Hturn) as Hcap.
    intros Hrest. apply IH in Hrest; [| lia].
    destruct Hrest as (Hs' & Hd' & Ho').
    repeat split; [congruence | lia |].
    destruct o; auto. destruct Ho'; split; [assumption | lia].
Qed.

Lemma calm_make_request url method headers data max_redirects :
  calm (make_request url method headers data max_redirects).
Proof. unfold make_request. eapply calm_make_request_loop. reflexivity. Qed.

#[local] Hint Resolve calm_make_request : calm.

Lemma calm_get_current_ip : calm get_current_ip.
Proof. unfold get_current_ip. auto 10 with calm. Qed.

Lemma calm_update_dns ip : calm (update_dns ip).
Proof. unfold update_dns. auto 20 with calm. Qed.

#[local] Hint Resolve calm_get_current_ip calm_update_dns : calm.

Lemma calm_check_and_update_ip : calm check_and_update_ip.
Proof. unfold check_and_update_ip. auto 10 with calm. Qed.

(** *** The cycle never raises *)

Lemma check_and_update_ip_no_raise w w' o :
  check_and_update_ip w = (w', o) ->
  match o with Raise _ => False | _ => True end.
Proof.
  unfold check_and_update_ip, try_except.
  match goal with |- context [bind ?m ?k w] => destruct (bind m k w) as [w1 [[] | e | b]] end.
  - intros [= <- <-]. exact I.
  - unfold bind. rewrite !log_returns. intros [= <- <-]. exact I.
  - intros [= <- <-]. exact I.
Qed.

(** C1.  check_and_update_ip never hands an exception to its caller.  When
    get_current_ip raises, or when it returns and update_dns raises, the
    error is caught, the lines "Update cycle failed: <error>" and "Will
    retry in 5.0 minutes" are logged and the call returns normally. *)
Theorem check_and_update_ip_absorbs (w : world) :
  match snd (check_and_update_ip w) with Raise _ => False | _ => True end
  /\ (forall w1 error,
        get_current_ip w = (w1, Raise error) ->
        check_and_update_ip w = (retry_logged error w1, Return tt))
  /\ (forall w1 ip w2 error,
        get_current_ip w = (w1, Return ip) ->
        update_dns ip w1 = (w2, Raise error) ->
        check_and_update_ip w = (retry_logged error w2, Return tt)).
Proof.
  split; [| split].
  - destruct (check_and_update_ip w) as [w' o] eqn:Hrun.
    exact (check_and_update_ip_no_raise _ _ _ Hrun).
  - intros w1 error Hip.
    unfold check_and_update_ip, try_except, bind. rewrite Hip.
    rewrite !log_returns. reflexivity.
  - intros w1 ip w2 error Hip Hdns.
    unfold check_and_update_ip, try_except, bind. rewrite Hip, Hdns.
    rewrite !log_returns. reflexivity.
Qed.

(** *** The main loop *)

Lemma sleep_outcome seconds w :
  match sleep seconds w with
  | (w', Return _) => slept w' = (slept w ++ [seconds])%list /\ delivered w' = delivered w
  | (w', Raise _) => False
  | (w', Abort b) =>
      b = SystemExit 0 /\ slept w' = slept w
      /\ (length (delivered w) < length (delivered w'))%nat
  end.
Proof.
  unfold sleep. destruct (nap (length (slept w))) as [s |].
  - unfold deliver, handle_signal, bind, sys_exit.
    rewrite !log_returns. simpl.
    rewrite length_app. simpl. repeat split; lia.
  - simpl. auto.
Qed.

(** One turn of the loop: it returns after one completed sleep of
    [UPDATE_INTERVAL] seconds, or a signal was delivered and it unwinds with
    [SystemExit(0)]. *)
Lemma cycle_outcome w :
  match cycle w with
  | (w', Return _) =>
      slept w' = (slept w ++ [UPDATE_INTERVAL])%list
      /\ (length (delivered w) <= length (delivered w'))%nat
  | (w', Raise _) => False
  | (w', Abort b) =>
      b = SystemExit 0 /\ slept w' = slept w
      /\ (length (delivered w) < length (delivered w'))%nat
  end.
Proof.
  unfold cycle, try_except, bind.
  destruct (check_and_update_ip w) as [w1 [[] | e | b]] eqn:Hrun.
  - apply calm_check_and_update_ip in Hrun as (Hs & Hd & _).
    pose proof (sleep_outcome UPDATE_INTERVAL w1) as Hsleep.
    destruct (sleep UPDATE_INTERVAL w1) as [w2 [[] | e | b]].
    + destruct Hsleep as [Hs2 Hd2]. rewrite Hs2, Hs, Hd2. auto.
    + contradiction.
    + destruct Hsleep as (Hb & Hs2 & Hd2). repeat split; [assumption | congruence | lia].
  - apply check_and_update_ip_no_raise in Hrun. contradiction.
  - apply calm_check_and_update_ip in Hrun as (Hs & Hd & Hb). tauto.
Qed.

Lemma main_step_outcome w :
  match main_step w with
  | Looping w' =>
      slept w' = (slept w ++ [UPDATE_INTERVAL])%list
      /\ (length (delivered w) <= length (delivered w'))%nat
  | Exited w' code =>
      code = 0 /\ slept w' = slept w
      /\ (length (delivered w) < length (delivered w'))%nat
  end.
Proof.
  unfold main_step. pose proof (cycle_outcome w) as Hturn.
  destruct (cycle w) as [w1 [[] | e | b]]; [exact Hturn | contradiction |].
  destruct Hturn as (-> & Hs & Hd). simpl. auto.
Qed.

Lemma after_turns_step w0 w :
  after_turns w0 (Looping w) -> after_turns w0 (main_step w).
Proof.
  intros [[n Hn] Hd]. pose proof (main_step_outcome w) as Hstep.
  destruct (main_step w) as [w' | w' code]; simpl.
  - destruct Hstep as [Hs Hd']. split; [| lia].
    exists (S n). rewrite Hs, Hn, <- app_assoc. f_equal.
    symmetry. apply (repeat_cons n UPDATE_INTERVAL).
  - destruct Hstep as (Hc & Hs & Hd'). repeat split; [assumption | lia |].
    exists n. congruence.
Qed.

Lemma after_turns_reaches w0 p q :
  reaches p q -> after_turns w0 p -> after_turns w0 q.
Proof.
  induction 1 as [p | w q Hrest IH]; intros Hp.
  - exact Hp.
  - apply IH, after_turns_step, Hp.
Qed.

(** C8.  Seen as a step relation over the turns of the main loop: a turn
    either completes exactly one sleep of UPDATE_INTERVAL seconds and leaves
    the process looping, or a termination signal was delivered during it and
    the process exits with code 0.  So every state reached from a looping
    one is either looping, after whole turns of UPDATE_INTERVAL seconds
    each, or exited with code 0 after a signal was delivered; no error of a
    request or of decoding ends the process. *)
Theorem main_loop_exits_only_on_signal (w : world) :
  match main_step w with
  | Looping w' => slept w' = (slept w ++ [UPDATE_INTERVAL])%list
  | Exited w' code =>
      code = 0 /\ (length (delivered w) < length (delivered w'))%nat
  end
  /\ forall q, reaches (Looping w) q ->
       match q with
       | Looping w' =>
           exists n, slept w' = (slept w ++ repeat UPDATE_INTERVAL n)%list
       | Exited w' code =>
           code = 0 /\ (length (delivered w) < length (delivered w'))%nat
       end.
Proof.
  split.
  - pose proof (main_step_outcome w) as Hstep.
    destruct (main_step w); tauto.
  - intros q Hq.
    assert (Hstart : after_turns w (Looping w)).
    { split; [exists 0%nat; simpl; now rewrite app_nil_r | lia]. }
    pose proof (after_turns_reaches w _ _ Hq Hstart) as Hinv.
    destruct q; simpl in Hinv; tauto.
Qed.

(** *** Headers *)

Lemma lower_char_idem c : lower_char (lower_char c) = lower_char c.
Proof. destruct c as [[] [] [] [] [] [] [] []]; reflexivity. Qed.

Lemma lower_idem s : lower (lower s) = lower s.
Proof. induction s as [| c s IH]; simpl; [reflexivity |]. now rewrite lower_char_idem, IH. Qed.

Lemma capitalize_idem s : capitalize (capitalize s) = capitalize s.
Proof.
  destruct s as [| c s]; [reflexivity |].
  unfold capitalize at 2 3.
  destruct (N_of_ascii c =? 223)%N eqn:Hc.
  - change ("Ss" ++ lower s) with (String "S" (String "s" (lower s))).
    cbn. now rewrite lower_idem.
  - unfold capitalize.
    replace (N_of_ascii (upper_char c) =? 223)%N with false.
    + f_equal; [| apply lower_idem].
      clear Hc. destruct c as [[] [] [] [] [] [] [] []]; reflexivity.
    + destruct c as [[] [] [] [] [] [] [] []];
        first [reflexivity | vm_compute in Hc; discriminate Hc].
Qed.

Lemma hd_set_keys key val d :
  map fst (hd_set key val d)
  = if hd_has key d then map fst d else (map fst d ++ [key])%list.
Proof.
  induction d as [| [k v] d IH]; simpl; [reflexivity |].
  unfold hd_has in *. simpl.
  destruct (bool_decide (k = key)) eqn:Hk; simpl; [reflexivity |].
  rewrite IH. destruct (existsb _ d); reflexivity.
Qed.

Lemma hd_has_In key d : hd_has key d = true <-> In key (map fst d).
Proof.
  unfold hd_has. rewrite existsb_exists, in_map_iff. split.
  - intros ([k v] & Hin & Hk). apply bool_decide_eq_true in Hk. eauto.
  - intros ([k v] & Hk & Hin). exists (k, v). split; [exact Hin |].
    now apply bool_decide_eq_true.
Qed.

Lemma hd_set_fresh key val d :
  hd_has key d = false -> hd_set key val d = (d ++ [(key, val)])%list.
Proof.
  unfold hd_has. induction d as [| [k v] d IH]; simpl; [reflexivity |].
  destruct (bool_decide (k = key)); simpl; [discriminate |].
  intros Hd. now rewrite IH.
Qed.

Lemma hd_set_In key val d kv :
  In kv (hd_set key val d) -> kv = (key, val) \/ In kv d.
Proof.
  induction d as [| [k v] d IH]; simpl.
  - intros [<- | []]. now left.
  - destruct (bool_decide (k = key)) eqn:Hk; simpl.
    + apply bool_decide_eq_true in Hk. subst k. intros [<- | Hin]; auto.
    + intros [<- | Hin]; [auto |]. destruct (IH Hin); auto.
Qed.

Lemma tidy_nil : tidy [].
Proof. split; constructor. Qed.

Lemma tidy_hd_set key val d :
  capitalize key = key -> tidy d -> tidy (hd_set key val d).
Proof.
  intros Hkey [Hnodup Hcap]. split.
  - rewrite hd_set_keys. destruct (hd_has key d) eqn:Hhas; [exact Hnodup |].
    apply NoDup_ListNoDup, List.NoDup_app; repeat split.
    + now apply NoDup_ListNoDup.
    + repeat constructor. intros [].
    + intros k Hin [<- | []].
      apply hd_has_In in Hin. congruence.
  - apply Forall_forall. intros kv Hin.
    apply list_elem_of_In, hd_set_In in Hin as [-> | Hin]; [exact Hkey |].
    rewrite Forall_forall in Hcap. apply Hcap. now apply list_elem_of_In.
Qed.

Lemma tidy_filter (keep : string * string -> bool) d :
  tidy d -> tidy (List.filter keep d).
Proof.
  intros [Hnodup Hcap]. split.
  - clear Hcap. induction d as [| kv d IH]; simpl; [constructor |].
    apply NoDup_cons in Hnodup as [Hnew Hnodup].
    destruct (keep kv); [| now apply IH].
    simpl. apply NoDup_cons. split; [| now apply IH].
    intros Hin. apply Hnew.
    apply list_elem_of_In, in_map_iff in Hin as (kv' & Hk & Hin).
    apply filter_In in Hin as [Hin _].
    apply list_elem_of_In, in_map_iff. eauto.
  - apply Forall_forall. intros kv Hin.
    apply list_elem_of_In, filter_In in Hin as [Hin _].
    rewrite Forall_forall in Hcap. apply Hcap. now apply list_elem_of_In.
Qed.

Lemma tidy_canon_from headers : forall acc,
  tidy acc ->
  tidy (fold_left (fun hs kv => hd_set (capitalize (fst kv)) (snd kv) hs) headers acc).
Proof.
  induction headers as [| [k v] headers IH]; intros acc Hacc; simpl; [exact Hacc |].
  apply IH, tidy_hd_set; [apply capitalize_idem | exact Hacc].
Qed.

Lemma tidy_canon headers : tidy (canon headers).
Proof. apply tidy_canon_from, tidy_nil. Qed.

(** Building a [Request] with tidy headers leaves them as they are. *)
Lemma canon_tidy_from (headers : header_dict) : forall acc : header_dict,
  tidy (acc ++ headers)%list ->
  fold_left (fun hs kv => hd_set (capitalize (fst kv)) (snd kv) hs) headers acc
  = (acc ++ headers)%list.
Proof.
  induction headers as [| [k v] headers IH]; intros acc Htidy; simpl.
  - now rewrite app_nil_r.
  - assert (Hk : capitalize k = k).
    { destruct Htidy as [_ Hcap]. rewrite Forall_forall in Hcap.
      apply (Hcap (k, v)), list_elem_of_In, in_or_app. right. now left. }
    assert (Hfresh : hd_has k acc = false).
    { destruct (hd_has k acc) eqn:Hhas; [| reflexivity].
      apply hd_has_In in Hhas. destruct Htidy as [Hnodup _].
      rewrite map_app in Hnodup. simpl in Hnodup.
      apply NoDup_ListNoDup, List.NoDup_remove_2 in Hnodup.
      exfalso. apply Hnodup, in_or_app. now left. }
    rewrite Hk, (hd_set_fresh _ _ _ Hfresh).
    rewrite IH; rewrite <- app_assoc; [reflexivity | exact Htidy].
Qed.

Lemma canon_tidy headers : tidy headers -> canon headers = headers.
Proof. intros Htidy. unfold canon. now rewrite canon_tidy_from. Qed.

Lemma content_free_idem headers :
  content_free (content_free headers) = content_free headers.
Proof.
  unfold content_free. induction headers as [| kv headers IH]; simpl; [reflexivity |].
  destruct (negb (content_header (fst kv))) eqn:Hkeep; simpl; [| exact IH].
  now rewrite Hkeep, IH.
Qed.

(** What [Request] builds. *)
Lemma add_headers_from url headers : forall acc method data,
  fold_left (fun req kv => add_header (fst kv) (snd kv) req) headers
            (Req url acc method data)
  = Req url (fold_left (fun hs kv => hd_set (capitalize (fst kv)) (snd kv) hs)
                       headers acc) method data.
Proof.
  induction headers as [| [k v] headers IH]; intros acc method data; simpl;
    [reflexivity |].
  unfold add_header at 2. simpl. apply IH.
Qed.

Lemma Request_gives url headers host_known method req :
  Request url headers host_known method = Gives req ->
  req = Req url (canon headers) (if nonempty method then Some method else None) NoData.
Proof.
  unfold Request. destruct (unknown_url_type url); [discriminate |].
  destruct (if host_known then None else request_host_error url); [discriminate |].
  intros [= <-]. rewrite add_headers_from. reflexivity.
Qed.

Lemma Request_accepted url headers method :
  url_accepted url ->
  Request url headers false method
  = Gives (Req url (canon headers) (if nonempty method then Some method else None) NoData).
Proof.
  intros [Htype Hhost]. unfold Request. rewrite Htype, Hhost, add_headers_from.
  reflexivity.
Qed.

Lemma Request_rejected url headers method e :
  Request url headers false method = Throws e -> ~ url_accepted url.
Proof.
  unfold Request, url_accepted. intros Hreq [Htype Hhost].
  rewrite Htype, Hhost in Hreq. discriminate.
Qed.

(** The request of a turn has tidy headers. *)
Lemma build_request_tidy url method headers data req hs d :
  build_request url method headers data = Gives (req, hs, d) ->
  tidy (req_headers req).
Proof.
  unfold build_request.
  destruct (Request url (default [] headers) false method) as [r | e] eqn:Hreq;
    [| discriminate].
  apply Request_gives in Hreq. subst r.
  pose proof (tidy_canon (default [] headers)) as Htidy.
  destruct (payload_truthy data).
  - destruct data as [| [| b | z | f | s | l | dd] | b];
      try (intros [= <- _ _]; apply tidy_filter; exact Htidy).
    destruct (json_dumps (VDict dd)); [| discriminate].
    intros [= <- _ _]. apply tidy_filter.
    destruct (hd_has "Content-Type" (default [] headers)); [exact Htidy |].
    apply tidy_hd_set; [reflexivity | exact Htidy].
  - intros [= <- _ _]. exact Htidy.
Qed.


(** *** Requests that go out *)

Lemma offline_bind {A B} (m : M A) (k : A -> M B) :
  offline m -> (forall a, offline (k a)) -> offline (bind m k).
Proof.
  intros Hm Hk w w' o. unfold bind.
  destruct (m w) as [w1 [a | e | b]] eqn:Hrun; specialize (Hm _ _ _ Hrun).
  - intros Hcont. rewrite (Hk a _ _ _ Hcont). exact Hm.
  - now intros [= <- <-].
  - now intros [= <- <-].
Qed.

Lemma offline_try_bare {A} (body fallback : M A) :
  offline body -> offline fallback -> offline (try_bare body fallback).
Proof.
  intros Hm Hk w w' o. unfold try_bare.
  destruct (body w) as [w1 [a | e | b]] eqn:Hrun; specialize (Hm _ _ _ Hrun).
  - now intros [= <- <-].
  - intros Hcont. rewrite (Hk _ _ _ Hcont). exact Hm.
  - intros Hcont. rewrite (Hk _ _ _ Hcont). exact Hm.
Qed.

Lemma offline_ret {A} (a : A) : offline (ret a).
Proof. now intros w w' o [= <- <-]. Qed.

Lemma offline_raise {A} (e : exn) : offline (raise (A := A) e).
Proof. now intros w w' o [= <- <-]. Qed.

Lemma offline_lift {A} (r : fallible A) : offline (lift r).
Proof. destruct r; [apply offline_ret | apply offline_raise]. Qed.

Lemma offline_deliver {A} (s : signal) : offline (deliver (A := A) s).
Proof.
  intros w w' o. unfold deliver, handle_signal, bind, sys_exit.
  rewrite !log_returns. now intros [= <- <-].
Qed.

Lemma offline_read fp : offline (read fp).
Proof.
  destruct fp; simpl; auto using offline_ret, offline_raise, offline_deliver.
Qed.

Lemma offline_read_decode fp : offline (read_decode fp).
Proof.
  destruct fp; simpl; auto using offline_ret, offline_raise, offline_deliver.
Qed.

Lemma offline_except_HTTPError {A} e code hdrs fp :
  offline (except_HTTPError (A := A) e code hdrs fp).
Proof.
  unfold except_HTTPError.
  apply offline_bind; [| intros v; apply offline_raise].
  apply offline_try_bare; [| apply offline_ret].
  apply offline_bind; [apply offline_read_decode | intros text; apply offline_lift].
Qed.

Lemma offline_with_handlers {A} (m : M A) w w' o :
  with_handlers m w = (w', o) ->
  exists w1 o1, m w = (w1, o1) /\ sent w' = sent w1.
Proof.
  unfold with_handlers.
  destruct (m w) as [w1 [a | e | b]] eqn:Hrun.
  - intros [= <- <-]. eauto.
  - destruct (exn_class_of e);
      first [ intros Hcont; apply offline_except_HTTPError in Hcont; eauto
            | intros [= <- <-]; eauto ].
  - intros [= <- <-]. eauto.
Qed.

Lemma offline_http_error_302 req visited response code :
  offline (http_error_302 req visited response code).
Proof.
  unfold http_error_302.
  destruct (if msg_contains _ "location" then _ else _) as [location |];
    [| apply offline_ret].
  destruct (redirect_url (req_url req) location) as [newurl | | e];
    [| apply offline_raise | apply offline_raise].
  apply offline_bind; [apply offline_lift | intros new].
  apply offline_bind.
  - destruct visited as [visited |]; [| apply offline_ret].
    destruct (_ || _); [apply offline_raise | apply offline_ret].
  - intros v. apply offline_bind; [apply offline_read | intros _; apply offline_ret].
Qed.

(** In every turn of the opener exactly its request goes out. *)
Lemma opener_turn_sent req visited w w' o :
  opener_turn req visited w = (w', o) -> sent w' = (sent w ++ [req])%list.
Proof.
  unfold opener_turn. unfold bind at 1.
  destruct (exchange req w) as [w1 [response | e | b]] eqn:Hgo.
  - assert (Hsent : sent w1 = (sent w ++ [req])%list).
    { revert Hgo. unfold exchange.
      destruct (net (length (sent w)) req) as [r | e | s]; try discriminate.
      now intros [= <- _]. }
    rewrite <- Hsent.
    assert (Hrest : offline
              (match status response with
               | None => ret (Arrived response)
               | Some code =>
                   if (200 <=? code)%Z && (code <? 300)%Z then ret (Arrived response)
                   else
                     handled <-
                       (if redirect_code code
                        then http_error_302 req visited response code
                        else ret None) ;;
                     match handled with
                     | Some (new, visited) => ret (Redirected new visited)
                     | None =>
                         raise (http_error code (reason response)
                                  (resp_headers response) (resp_body response))
                     end
               end)).
    { destruct (status response) as [code |]; [| apply offline_ret].
      destruct (_ && _); [apply offline_ret |].
      apply offline_bind.
      - destruct (redirect_code code);
          [apply offline_http_error_302 | apply offline_ret].
      - intros [[new v] |]; [apply offline_ret | apply offline_raise]. }
    intros Hrun. exact (Hrest _ _ _ Hrun).
  - revert Hgo. unfold exchange.
    destruct (net (length (sent w)) req) as [r | e' | s]; try discriminate.
    intros [= <- _] [= <- _]. reflexivity.
  - revert Hgo. unfold exchange.
    destruct (net (length (sent w)) req) as [r | e' | s]; try discriminate.
    intros Hsig [= <- _]. apply offline_deliver in Hsig. exact Hsig.
Qed.

(** The request the redirect handler builds. *)
Lemma redirect_request_gives req fp code msg headers newurl new :
  redirect_request req fp code msg headers newurl = Gives new ->
  exists url, new = redirected_request (canon (content_free (req_headers req))) url.
Proof.
  unfold redirect_request. destruct (negb _); [discriminate |].
  intros Hnew. apply Request_gives in Hnew. subst new. eauto.
Qed.

Lemma opener_turn_new req visited w w' new visited' :
  opener_turn req visited w = (w', Return (Redirected new visited')) ->
  exists url, new = redirected_request (canon (content_free (req_headers req))) url.
Proof.
  unfold opener_turn, bind.
  destruct (exchange req w) as [w1 [response | e | b]]; try discriminate.
  destruct (status response) as [code |]; [| discriminate].
  destruct ((200 <=? code)%Z && (code <? 300)%Z); [discriminate |].
  destruct (redirect_code code); [| discriminate].
  unfold http_error_302.
  destruct (if msg_contains _ "location" then _ else _) as [location |];
    [| discriminate].
  destruct (redirect_url (req_url req) location) as [newurl | | e];
    try discriminate.
  unfold bind. rewrite lift_runs.
  destruct (redirect_request _ _ _ _ _ newurl) as [new' | e] eqn:Hnew;
    [| discriminate].
  apply redirect_request_gives in Hnew.
  destruct visited as [visited |].
  - destruct (_ || _); [discriminate |]. unfold ret.
    destruct (read (resp_body response) w1) as [w3 [[] | e | b]]; try discriminate.
    intros [= _ <- _]. exact Hnew.
  - unfold ret.
    destruct (read (resp_body response) w1) as [w3 [[] | e | b]]; try discriminate.
    intros [= _ <- _]. exact Hnew.
Qed.

(** The response the opener hands back has a 2xx status, or none. *)
Lemma opener_turn_arrived req visited w w' r :
  opener_turn req visited w = (w', Return (Arrived r)) ->
  match status r with
  | Some code => success_status code = true
  | None => True
  end.
Proof.
  unfold opener_turn, bind.
  destruct (exchange req w) as [w1 [response | e | b]]; try discriminate.
  destruct (status response) as [code |] eqn:Hstatus.
  - unfold success_status.
    destruct ((200 <=? code)%Z && (code <? 300)%Z) eqn:Hcode.
    + intros [= _ <-]. now rewrite Hstatus.
    + destruct (_ w1) as [w2 [[[new v] |] | e | b]]; discriminate.
  - intros [= _ <-]. now rewrite Hstatus.
Qed.

Lemma opener_open_status n :
  forall req visited w w' r,
    (redirect_room visited <= n)%nat ->
    opener_open req visited w = (w', Return r) ->
    match status r with
    | Some code => success_status code = true
    | None => True
    end.
Proof.
  induction n as [| n IH]; intros req visited w w' r Hn;
    rewrite opener_open_turn;
    destruct (opener_turn req visited w) as [w1 [[r' | new v] | e | b]] eqn:Hturn;
    try discriminate;
    try (intros [= _ <-]; exact (opener_turn_arrived _ _ _ _ _ Hturn)).
  - apply opener_turn_redirected in Hturn. lia.
  - apply opener_turn_redirected in Hturn. apply IH. lia.
Qed.

Lemma urlopen_status req w w' r :
  urlopen req w = (w', Return r) ->
  match status r with
  | Some code => success_status code = true
  | None => True
  end.
Proof. apply (opener_open_status _ _ _ _ _ _ (Nat.le_refl _)). Qed.

(** The requests of one call of the opener: its own, then one of the
    redirect handler for each redirect followed, as many as there is room
    for. *)
Lemma opener_open_requests n :
  forall req visited w w' o,
    (redirect_room visited <= n)%nat ->
    tidy (req_headers req) ->
    opener_open req visited w = (w', o) ->
    exists urls,
      sent w' = (sent w ++ req ::
                   map (redirected_request (content_free (req_headers req))) urls)%list
      /\ (length urls <= redirect_room visited)%nat.
Proof.
  induction n as [| n IH]; intros req visited w w' o Hn Htidy;
    rewrite opener_open_turn;
    destruct (opener_turn req visited w) as [w1 [[r' | new v] | e | b]] eqn:Hturn;
    pose proof (opener_turn_sent _ _ _ _ _ Hturn) as Hsent;
    try (intros [= <- <-]; exists []; split; [exact Hsent | simpl; lia]).
  - apply opener_turn_redirected in Hturn. lia.
  - pose proof (opener_turn_redirected _ _ _ _ _ _ Hturn) as Hroom.
    apply opener_turn_new in Hturn as [url ->].
    assert (Hsame : canon (content_free (req_headers req))
                    = content_free (req_headers req)).
    { apply canon_tidy. unfold content_free. apply tidy_filter, Htidy. }
    rewrite Hsame. intros Hrest. apply IH in Hrest as (urls & Hsent' & Hlen); [| lia |].
    + exists (url :: urls). split; [| simpl; lia].
      rewrite Hsent', Hsent, <- app_assoc. simpl.
      now rewrite content_free_idem.
    + simpl. unfold content_free. apply tidy_filter, Htidy.
Qed.

Lemma urlopen_requests req w w' o :
  tidy (req_headers req) ->
  urlopen req w = (w', o) ->
  exists urls,
    sent w' = (sent w ++ req ::
                 map (redirected_request (content_free (req_headers req))) urls)%list
    /\ (length urls <= 37)%nat.
Proof.
  intros Htidy Hrun.
  exact (opener_open_requests _ req None w w' o (Nat.le_refl _) Htidy Hrun).
Qed.

(** *** What urlopen leaves alone *)













(** *** The request loop runs one turn *)

Lemma deliver_unwinds {A} (s : signal) w :
  deliver (A := A) s w = (signalled s w, Abort (SystemExit 0)).
Proof. reflexivity. Qed.

Lemma except_HTTPError_raises {A} e code hdrs fp w :
  except_HTTPError (A := A) e code hdrs fp w
  = (after_error_read fp w, Raise (status_error e code hdrs fp)).
Proof.
  destruct fp as [text | e' | e' | s]; try reflexivity.
  unfold except_HTTPError, try_bare, bind, status_error, error_record, error_body.
  cbn [read_decode ret]. rewrite lift_runs.
  destruct (parse_body text); reflexivity.
Qed.

(** What the two handlers make of an outcome. *)
Lemma with_handlers_runs {A} (m : M A) w :
  with_handlers m w =
  match m w with
  | (w', Raise e) =>
      match exn_class_of e with
      | HTTPError code hdrs fp =>
          (after_error_read fp w', Raise (status_error e code hdrs fp))
      | URLError => (w', Raise (transport_error e))
      | _ => (w', Raise e)
      end
  | r => r
  end.
Proof.
  unfold with_handlers. destruct (m w) as [w' [a | e | b]]; try reflexivity.
  destruct (exn_class_of e); try reflexivity. apply except_HTTPError_raises.
Qed.

(** A response that urlopen hands back is no redirect: the branch of lines
    75-80 is not taken. *)
Lemma try_body_once req headers data redirect_count max_redirects w :
  try_body req headers data redirect_count max_redirects w =
  match (response <- urlopen req ;; answer_of response) w with
  | (w', Return v) => (w', Return (Done v))
  | (w', Raise e) => (w', Raise e)
  | (w', Abort b) => (w', Abort b)
  end.
Proof.
  unfold try_body, answer_of. unfold bind at 1 5.
  destruct (urlopen req w) as [w1 [r | e | b]] eqn:Hopen; try reflexivity.
  apply urlopen_status in Hopen.
  unfold bind at 1 4. rewrite !lift_runs. unfold is_redirect.
  destruct (status r) as [code |]; [| reflexivity].
  unfold success_status in Hopen. apply andb_prop in Hopen as [_ Hlt].
  apply Z.ltb_lt in Hlt.
  replace (300 <=? code)%Z with false by (symmetry; apply Z.leb_gt; lia).
  simpl. unfold bind.
  destruct (read_decode (resp_body r) w1) as [w2 [text | e | b]]; reflexivity.
Qed.

Lemma request_once_built url method headers data req hs d w :
  build_request url method headers data = Gives (req, hs, d) ->
  request_once url method headers data w
  = with_handlers (response <- urlopen req ;; answer_of response) w.
Proof. intros Hbuilt. unfold request_once. unfold bind at 1. now rewrite lift_runs, Hbuilt. Qed.

Lemma request_once_unbuilt url method headers data e w :
  build_request url method headers data = Throws e ->
  request_once url method headers data w = (w, Raise e).
Proof. intros Hbuilt. unfold request_once. unfold bind at 1. now rewrite lift_runs, Hbuilt. Qed.

Lemma iteration_once method max_redirects url headers data redirect_count w :
  iteration method max_redirects url headers data redirect_count w =
  match request_once url method headers data w with
  | (w', Return v) => (w', Return (Done v))
  | (w', Raise e) => (w', Raise e)
  | (w', Abort b) => (w', Abort b)
  end.
Proof.
  destruct (build_request url method headers data) as [[[req hs] d] | e] eqn:Hbuilt.
  - rewrite (request_once_built _ _ _ _ _ _ _ _ Hbuilt).
    unfold iteration. unfold bind at 1. rewrite lift_runs, Hbuilt.
    rewrite !with_handlers_runs, try_body_once.
    destruct (bind (urlopen req) _ w) as [w1 [v | e' | b]]; try reflexivity.
    destruct (exn_class_of e'); reflexivity.
  - rewrite (request_once_unbuilt _ _ _ _ _ _ Hbuilt).
    unfold iteration. unfold bind at 1. now rewrite lift_runs, Hbuilt.
Qed.

Lemma make_request_once url method headers data max_redirects w :
  make_request url method headers data max_redirects w
  = request_once url method headers data w.
Proof.
  unfold make_request. rewrite make_request_loop_turn, iteration_once.
  destruct (request_once url method headers data w) as [w1 [v | e | b]]; reflexivity.
Qed.

(** No request can be built: the error leaves make_request as it is. *)
Lemma make_request_unbuilt url method headers data max_redirects w e :
  build_request url method headers data = Throws e ->
  make_request url method headers data max_redirects w = (w, Raise e).
Proof.
  intros Hbuilt. rewrite make_request_once.
  apply request_once_unbuilt, Hbuilt.
Qed.

(** urlopen raises. *)
Lemma make_request_on_failure url method headers data max_redirects w req hs d w1 e :
  build_request url method headers data = Gives (req, hs, d) ->
  urlopen req w = (w1, Raise e) ->
  make_request url method headers data max_redirects w =
  match exn_class_of e with
  | HTTPError code hdrs fp =>
      (after_error_read fp w1, Raise (status_error e code hdrs fp))
  | URLError => (w1, Raise (transport_error e))
  | _ => (w1, Raise e)
  end.
Proof.
  intros Hbuilt Hopen.
  rewrite make_request_once, (request_once_built _ _ _ _ _ _ _ _ Hbuilt).
  rewrite with_handlers_runs. unfold bind. rewrite Hopen. reflexivity.
Qed.

(** urlopen hands back a response that has a status. *)
Lemma make_request_on_response url method headers data max_redirects w req hs d w1 r code :
  build_request url method headers data = Gives (req, hs, d) ->
  urlopen req w = (w1, Return r) ->
  status r = Some code ->
  make_request url method headers data max_redirects w
  = with_handlers (response_data <- read_decode (resp_body r) ;;
                   lift (parse_body response_data)) w1.
Proof.
  intros Hbuilt Hopen Hstatus.
  rewrite make_request_once, (request_once_built _ _ _ _ _ _ _ _ Hbuilt).
  rewrite !with_handlers_runs. unfold bind at 1. rewrite Hopen.
  unfold answer_of. unfold bind at 1. rewrite lift_runs.
  unfold is_redirect. rewrite Hstatus. reflexivity.
Qed.

(** The body reads as [text]. *)
Lemma make_request_terminal url method headers data max_redirects w req hs d w1 r code text :
  build_request url method headers data = Gives (req, hs, d) ->
  urlopen req w = (w1, Return r) ->
  status r = Some code ->
  resp_body r = ReadText text ->
  make_request url method headers data max_redirects w
  = with_handlers (lift (parse_body text)) w1.
Proof.
  intros Hbuilt Hopen Hstatus Hbody.
  rewrite (make_request_on_response _ _ _ _ _ _ _ _ _ _ _ _ Hbuilt Hopen Hstatus).
  rewrite !with_handlers_runs, Hbody. reflexivity.
Qed.

(** The requests of one call: the one the script builds and those of the
    redirect handler, or none when no request can be built. *)
Lemma make_request_requests url method headers data max_redirects w w' o :
  make_request url method headers data max_redirects w = (w', o) ->
  match build_request url method headers data with
  | Gives (req, _, _) =>
      exists urls,
        sent w' = (sent w ++ req ::
                     map (redirected_request (content_free (req_headers req))) urls)%list
        /\ (length urls <= 37)%nat
  | Throws _ => sent w' = sent w
  end.
Proof.
  rewrite make_request_once.
  destruct (build_request url method headers data) as [[[req hs] d] | e] eqn:Hbuilt.
  - rewrite (request_once_built _ _ _ _ _ _ _ _ Hbuilt).
    intros Hrun. apply offline_with_handlers in Hrun as (w1 & o1 & Hrun & ->).
    revert Hrun. unfold bind.
    destruct (urlopen req w) as [w2 [r | e | b]] eqn:Hopen;
      apply urlopen_requests in Hopen; try exact (build_request_tidy _ _ _ _ _ _ _ Hbuilt).
    + intros Hrest.
      assert (Hoff : offline (answer_of r)).
      { unfold answer_of.
        apply offline_bind; [apply offline_lift | intros _].
        apply offline_bind; [apply offline_read_decode | intros text; apply offline_lift]. }
      rewrite (Hoff _ _ _ Hrest). exact Hopen.
    + now intros [= <- _].
    + now intros [= <- _].
  - rewrite (request_once_unbuilt _ _ _ _ _ _ Hbuilt). now intros [= <- _].
Qed.

Lemma requests_within_make_request url method headers data max_redirects :
  requests_within 0 38 (make_request url method headers data max_redirects).
Proof.
  intros w w' o Hrun. apply make_request_requests in Hrun.
  destruct (build_request url method headers data) as [[[req hs] d] | e].
  - destruct Hrun as (urls & Hsent & Hlen). eexists. split; [exact Hsent |].
    simpl. rewrite length_map. lia.
  - exists []. rewrite app_nil_r. simpl. split; [exact Hrun | lia].
Qed.

(** What [build_request] gives for the two calls of the script. *)
Lemma build_ip_request :
  url_accepted (SERVER_URL ++ "/api/ip") ->
  build_request (SERVER_URL ++ "/api/ip") "GET" None NoData
  = Gives (ip_request, [], NoData).
Proof.
  intros Hurl. unfold build_request. simpl default.
  rewrite (Request_accepted _ _ _ Hurl). reflexivity.
Qed.

Lemma build_update_request ip text :
  url_accepted (SERVER_URL ++ "/api/dns/update") ->
  json_dumps (VDict {[ "ip" := ip ]}) = Gives text ->
  build_request (SERVER_URL ++ "/api/dns/update") "POST" (Some update_headers)
    (Obj (VDict {[ "ip" := ip ]}))
  = Gives (update_request text, update_headers, Bytes (encode_utf8 text)).
Proof.
  intros Hurl Hdumps. unfold build_request. simpl default.
  rewrite (Request_accepted _ _ _ Hurl).
  assert (Htruthy : payload_truthy (Obj (VDict {[ "ip" := ip ]})) = true).
  { unfold payload_truthy, truthy.
    rewrite bool_decide_eq_false_2; [reflexivity | apply insert_non_empty]. }
  rewrite Htruthy, Hdumps. reflexivity.
Qed.


(** *** Bodies *)

(** C3 (amended).  When urlopen hands back a response with a status and
    its body reads as [text], make_request returns: the decoded value when
    json.loads decodes [text] (no blank text being one it decodes); exactly
    { "data": text } when [text] has a character that is not whitespace and
    json.loads rejects it with JSONDecodeError; and the empty dict when
    [text] is empty or all whitespace. *)
Theorem make_request_decodes_body url method headers data max_redirects w
    req hs d w1 r code text :
  build_request url method headers data = Gives (req, hs, d) ->
  urlopen req w = (w1, Return r) ->
  status r = Some code ->
  resp_body r = ReadText text ->
  let result := make_request url method headers data max_redirects w in
  (forall v,
      json_loads text = Gives v ->
      (forall s v', nonempty (strip s) = false -> json_loads s <> Gives v') ->
      result = (w1, Return v))
  /\ (forall e,
        json_loads text = Throws e ->
        exn_class_of e = JSONDecodeError ->
        nonempty (strip text) = true ->
        result = (w1, Return (VDict {[ "data" := VStr text ]})))
  /\ (nonempty (strip text) = false ->
      result = (w1, Return (VDict ∅))).
Proof.
  intros Hbuilt Hopen Hstatus Hbody result. subst result.
  rewrite (make_request_terminal _ _ _ _ _ _ _ _ _ _ _ _ _
             Hbuilt Hopen Hstatus Hbody).
  rewrite with_handlers_runs, lift_runs. unfold parse_body. repeat split.
  - intros v Hv Hblank.
    destruct (nonempty (strip text)) eqn:Hstrip.
    + now rewrite Hv.
    + now contradiction (Hblank _ v Hstrip).
  - intros e He Hclass Hstrip. now rewrite Hstrip, He, Hclass.
  - intros Hstrip. now rewrite Hstrip.
Qed.

(** *** get_current_ip *)

(** C5.  Whatever error the request to {SERVER_URL}/api/ip raises,
    get_current_ip logs it and raises Exception("Failed to detect IP
    address"); every error get_current_ip raises is that one value, so
    nothing of the original error is in it.  When the request returns a dict
    with an "ip" entry, get_current_ip returns that entry. *)
Theorem get_current_ip_wraps_failures (w : world) :
  let w1 := logged "INFO" "Detecting public IP address..." w in
  let call := make_request (SERVER_URL ++ "/api/ip") "GET" None NoData 5 in
  (forall w2 error,
      call w1 = (w2, Raise error) ->
      get_current_ip w
      = (fst (log_error "Failed to detect IP address" error w2),
         Raise (new_exn Exception "Failed to detect IP address")))
  /\ (forall w' error,
        get_current_ip w = (w', Raise error) ->
        error = new_exn Exception "Failed to detect IP address")
  /\ (forall w2 d ip,
        call w1 = (w2, Return (VDict d)) ->
        d !! "ip" = Some ip ->
        get_current_ip w
        = (logged "INFO" ("Successfully detected IP: " ++ py_str ip) w2, Return ip)).
Proof.
  intros w1 call. subst w1 call. repeat split.
  - intros w2 error Hcall.
    unfold get_current_ip, try_except. unfold bind at 1. rewrite log_returns.
    unfold bind at 1. rewrite Hcall.
    unfold bind at 1. rewrite log_error_returns. reflexivity.
  - intros w' error. unfold get_current_ip, try_except.
    match goal with |- context [bind ?m ?k w] => destruct (bind m k w) as [w1 [v | e | b]] end;
      try discriminate.
    unfold bind. rewrite log_error_returns. now intros [= _ <-].
  - intros w2 d ip Hcall Hip.
    unfold get_current_ip, try_except. unfold bind at 1. rewrite log_returns.
    unfold bind at 1. rewrite Hcall.
    unfold bind, getitem. rewrite Hip. simpl. rewrite ?Hip. reflexivity.
Qed.

(** C10.  When the request to the IP endpoint returns a value without an
    "ip" entry (a dict lacking the key, such as the wrapper { "data": ... }
    of a body that is not JSON or the empty dict of an empty body, or a
    value that is no dict), the lookup raises inside get_current_ip, which
    logs that error and raises Exception("Failed to detect IP address"): it
    neither returns nor lets the lookup error out. *)
Theorem get_current_ip_missing_ip (w w2 : world) (response : value) :
  make_request (SERVER_URL ++ "/api/ip") "GET" None NoData 5
    (logged "INFO" "Detecting public IP address..." w) = (w2, Return response) ->
  (forall d, response = VDict d -> d !! "ip" = None) ->
  exists lookup_error,
    getitem response "ip" w2 = (w2, Raise lookup_error)
    /\ get_current_ip w
       = (fst (log_error "Failed to detect IP address" lookup_error w2),
          Raise (new_exn Exception "Failed to detect IP address")).
Proof.
  intros Hcall Hmissing.
  assert (Hlookup : exists lookup_error,
             getitem response "ip" w2 = (w2, Raise lookup_error)).
  { destruct response; simpl; eauto.
    rewrite (Hmissing d eq_refl). simpl. eauto. }
  destruct Hlookup as [lookup_error Hlookup].
  exists lookup_error. split; [exact Hlookup |].
  unfold get_current_ip, try_except. unfold bind at 1. rewrite log_returns.
  unfold bind at 1. rewrite Hcall.
  unfold bind at 1. rewrite Hlookup.
  unfold bind at 1. rewrite log_error_returns. reflexivity.
Qed.

(** *** update_dns *)

(** C6.  An error raised by the request to {SERVER_URL}/api/dns/update, or
    by the inspection of what it returned, is logged by update_dns and
    raised again as the very same value: not wrapped, not replaced. *)
Theorem update_dns_reraises_unmodified (ip : value) (w : world) :
  (forall w2 error,
      update_call ip (updating ip w) = (w2, Raise error) ->
      update_dns ip w
      = (fst (log_error "Failed to update DNS record" error w2), Raise error))
  /\ (forall w2 response error,
        update_call ip (updating ip w) = (w2, Return response) ->
        dict_get response "success" VNone w2 = (w2, Raise error) ->
        update_dns ip w
        = (fst (log_error "Failed to update DNS record" error w2), Raise error)).
Proof.
  split.
  - intros w2 error Hcall.
    unfold update_dns, try_except. unfold bind at 1. rewrite log_returns.
    cbv zeta. fold (updating ip w). change (make_request _ "POST" _ _ 5) with (update_call ip).
    unfold bind at 1. rewrite Hcall.
    unfold bind at 1. rewrite log_error_returns. reflexivity.
  - intros w2 response error Hcall Hget.
    unfold update_dns, try_except. unfold bind at 1. rewrite log_returns.
    cbv zeta. fold (updating ip w). change (make_request _ "POST" _ _ 5) with (update_call ip).
    unfold bind at 1. rewrite Hcall.
    unfold bind at 1. rewrite Hget.
    unfold bind at 1. rewrite log_error_returns. reflexivity.
Qed.

(** C7.  What update_dns returns is the value the request returned.  When
    that value is a dict whose "success" entry is true and whose "result"
    entry is a dict, update_dns logs one more line and returns the dict
    unchanged: "DNS record is already up-to-date (<ip>)" when the status of
    the result is "unchanged", "DNS record updated successfully to <ip>" for
    any other status. *)
Theorem update_dns_success_logging (ip : value) (w : world) :
  (forall w' v,
      update_dns ip w = (w', Return v) ->
      exists w2, update_call ip (updating ip w) = (w2, Return v))
  /\ (forall w2 d success result,
        update_call ip (updating ip w) = (w2, Return (VDict d)) ->
        d !! "success" = Some success ->
        truthy success = true ->
        d !! "result" = Some (VDict result) ->
        (result !! "status" = Some (VStr "unchanged") ->
         update_dns ip w
         = (logged "INFO" ("DNS record is already up-to-date (" ++ py_str ip ++ ")") w2,
            Return (VDict d)))
        /\ (result !! "status" <> Some (VStr "unchanged") ->
            update_dns ip w
            = (logged "INFO" ("DNS record updated successfully to " ++ py_str ip) w2,
               Return (VDict d)))).
Proof.
  split.
  - intros w' v. unfold update_dns, try_except. unfold bind at 1.
    rewrite log_returns. cbv zeta. fold (updating ip w). change (make_request _ "POST" _ _ 5) with (update_call ip).
    unfold bind at 1.
    destruct (update_call ip (updating ip w)) as [w2 [response | e | b]].
    + match goal with
      | |- context [bind ?m ?k w2] => destruct (bind m k w2) as [w3 [a | e | b]] eqn:Hinspect
      end.
      * intros Hrest. exists w2. f_equal. f_equal.
        revert Hinspect. unfold bind at 1.
        destruct (dict_get response "success" VNone w2) as [w4 [s | e | b]]; try discriminate.
        unfold bind at 1.
        match goal with
        | |- context [match ?m w4 with _ => _ end] => destruct (m w4) as [w5 [[] | e | b]]
        end; try discriminate.
        intros [= _ <-]. congruence.
      * unfold bind. rewrite log_error_returns. discriminate.
      * discriminate.
    + unfold bind. rewrite log_error_returns. discriminate.
    + discriminate.
  - intros w2 d success result Hcall Hsuccess Htrue Hresult.
    assert (Hrun : update_dns ip w =
              (logged "INFO"
                 (if eq_str (default VNone (result !! "status")) "unchanged"
                  then "DNS record is already up-to-date (" ++ py_str ip ++ ")"
                  else "DNS record updated successfully to " ++ py_str ip) w2,
               Return (VDict d))).
    { unfold update_dns, try_except. unfold bind at 1. rewrite log_returns.
      cbv zeta. fold (updating ip w). change (make_request _ "POST" _ _ 5) with (update_call ip).
      unfold bind at 1. rewrite Hcall.
      unfold bind, dict_get, ret. rewrite Hsuccess. simpl. rewrite Htrue.
      rewrite Hresult. simpl.
      destruct (bool_decide (result = ∅)) eqn:Hempty; simpl.
      - apply bool_decide_eq_true in Hempty. subst result.
        rewrite lookup_empty. reflexivity.
      - destruct (eq_str (default VNone (result !! "status")) "unchanged");
          rewrite log_returns; reflexivity. }
    split.
    + intros Hstatus. rewrite Hrun, Hstatus. reflexivity.
    + intros Hstatus. rewrite Hrun.
      destruct (result !! "status") as [[] |] eqn:Hlook; simpl; try reflexivity.
      destruct (bool_decide (s = "unchanged")) eqn:Hs; [| reflexivity].
      apply bool_decide_eq_true in Hs. subst s. now contradiction Hstatus.
Qed.

(** ** Further properties *)

(** *** The redirect cap *)

(** [max_redirects] has no part in what make_request does. *)
Lemma make_request_any_cap url method headers data cap cap' w :
  make_request url method headers data cap w
  = make_request url method headers data cap' w.
Proof. now rewrite !make_request_once. Qed.

(** *** The requests of make_request *)

Lemma hd_get_filter (keep : string -> bool) name d :
  hd_get name (List.filter (fun kv => keep (fst kv)) d)
  = if keep name then hd_get name d else None.
Proof.
  induction d as [| [k v] d IH]; simpl; [now destruct (keep name) |].
  destruct (keep k) eqn:Hk; simpl.
  - destruct (bool_decide (k = name)) eqn:Hname; [| exact IH].
    apply bool_decide_eq_true in Hname. subst k. now rewrite Hk.
  - rewrite IH. destruct (bool_decide (k = name)) eqn:Hname; [| reflexivity].
    apply bool_decide_eq_true in Hname. subst k. now rewrite Hk.
Qed.

Lemma hd_get_set_same name val d : hd_get name (hd_set name val d) = Some val.
Proof.
  induction d as [| [k v] d IH]; simpl.
  - now rewrite bool_decide_eq_true_2.
  - destruct (bool_decide (k = name)) eqn:Hk; simpl; rewrite Hk; [reflexivity | exact IH].
Qed.

Lemma hd_get_pop name key d :
  hd_get name (hd_pop key d)
  = if bool_decide (name = key) then None else hd_get name d.
Proof.
  unfold hd_pop. induction d as [| [k v] d IH]; simpl.
  - now destruct (bool_decide (name = key)).
  - destruct (bool_decide (k = key)) eqn:Hk; simpl.
    + rewrite IH. apply bool_decide_eq_true in Hk. subst k.
      destruct (bool_decide (name = key)) eqn:Hname; [reflexivity |].
      rewrite bool_decide_eq_false_2; [reflexivity |].
      apply bool_decide_eq_false in Hname. congruence.
    + destruct (bool_decide (k = name)) eqn:Hname; [| exact IH].
      apply bool_decide_eq_true in Hname. subst k. now rewrite Hk.
Qed.

(** X2.  The requests of one call of make_request for which a request can
    be built: the request of the script first, then the requests the
    redirect handler of urllib makes, one for each redirect it follows, at
    most 37.  Each of those is for the target of the redirect and has no
    data, no method of its own (it goes out as a GET) and the headers of
    the first request but Content-length and Content-type. *)
Theorem make_request_redirected_requests url method headers data max_redirects w
    req hs d :
  build_request url method headers data = Gives (req, hs, d) ->
  exists urls,
    sent (fst (make_request url method headers data max_redirects w))
    = (sent w ++ req ::
         map (redirected_request (content_free (req_headers req))) urls)%list
    /\ (length urls <= 37)%nat
    /\ (forall name,
          hd_get name (content_free (req_headers req))
          = if content_header name then None else hd_get name (req_headers req)).
Proof.
  intros Hbuilt.
  destruct (make_request url method headers data max_redirects w) as [w' o] eqn:Hrun.
  apply make_request_requests in Hrun. rewrite Hbuilt in Hrun.
  destruct Hrun as (urls & Hsent & Hlen).
  exists urls. repeat split; [exact Hsent | exact Hlen |].
  intros name. unfold content_free.
  rewrite (hd_get_filter (fun k => negb (content_header k))).
  now destruct (content_header name).
Qed.

(** X3.  A dict body, and no header spelled exactly Content-Type among the
    caller's: the request goes out with the JSON text as its data and with
    Content-type: application/json.  That is so also when the caller gave
    the header in another spelling (content-type): urllib capitalizes the
    names, and the caller's value is replaced. *)
Theorem make_request_sets_content_type url method headers (d : gmap string value)
    text max_redirects w :
  url_accepted url ->
  d <> ∅ ->
  json_dumps (VDict d) = Gives text ->
  hd_has "Content-Type" (default [] headers) = false ->
  exists req later,
    sent (fst (make_request url method headers (Obj (VDict d)) max_redirects w))
    = (sent w ++ req :: later)%list
    /\ hd_get "Content-type" (req_headers req) = Some "application/json"
    /\ req_data req = Bytes (encode_utf8 text).
Proof.
  intros Hurl Hd Hdumps Hnone.
  assert (Hbuilt : exists req hs data',
             build_request url method headers (Obj (VDict d)) = Gives (req, hs, data')
             /\ hd_get "Content-type" (req_headers req) = Some "application/json"
             /\ req_data req = Bytes (encode_utf8 text)).
  { unfold build_request. rewrite (Request_accepted _ _ _ Hurl).
    unfold payload_truthy, truthy. rewrite (bool_decide_eq_false_2 _ Hd).
    cbn [negb]. rewrite Hdumps, Hnone.
    do 3 eexists. split; [reflexivity |]. split; [| reflexivity].
    cbn [set_data add_header req_headers]. rewrite hd_get_pop.
    rewrite bool_decide_eq_false_2 by discriminate.
    apply (hd_get_set_same "Content-type"). }
  destruct Hbuilt as (req & hs & data' & Hbuilt & Htype & Hdata).
  destruct (make_request url method headers (Obj (VDict d)) max_redirects w)
    as [w' o] eqn:Hrun.
  apply make_request_requests in Hrun. rewrite Hbuilt in Hrun.
  destruct Hrun as (urls & Hsent & _). eauto.
Qed.

(** X4.  A body that is false in Python (None, the empty dict, the empty
    string, empty bytes) is not sent: no request of the call carries data. *)
Theorem make_request_falsy_body_not_sent url method headers data max_redirects w :
  payload_truthy data = false ->
  exists issued,
    sent (fst (make_request url method headers data max_redirects w))
    = (sent w ++ issued)%list
    /\ Forall (fun req => req_data req = NoData) issued.
Proof.
  intros Hfalsy.
  destruct (make_request url method headers data max_redirects w) as [w' o] eqn:Hrun.
  apply make_request_requests in Hrun.
  destruct (build_request url method headers data) as [[[req hs] d] | e] eqn:Hbuilt.
  - destruct Hrun as (urls & Hsent & _). eexists. split; [exact Hsent |].
    constructor.
    + revert Hbuilt. unfold build_request. rewrite Hfalsy.
      destruct (Request url (default [] headers) false method) as [r |] eqn:Hreq;
        [| discriminate].
      apply Request_gives in Hreq. subst r. now intros [= <- _ _].
    + apply Forall_forall. intros later Hin.
      apply list_elem_of_In, in_map_iff in Hin as (u & <- & _). reflexivity.
  - exists []. rewrite app_nil_r. split; [exact Hrun | constructor].
Qed.

(** X19.  make_request is a total function of its arguments, the world and
    the oracles, and whatever the network answers at most 38 requests go
    out in one call: urllib follows a redirect to the same target at most
    four times and stops once ten targets were visited.  The bound does not
    depend on max_redirects. *)
Theorem make_request_requests_bounded url method headers data max_redirects w :
  exists w' o issued,
    make_request url method headers data max_redirects w = (w', o)
    /\ sent w' = (sent w ++ issued)%list
    /\ (length issued <= 38)%nat.
Proof.
  destruct (make_request url method headers data max_redirects w) as [w' o] eqn:Hrun.
  destruct (requests_within_make_request _ _ _ _ _ _ _ _ Hrun) as (issued & Hsent & Hlen).
  exists w', o, issued. repeat split; [exact Hsent | lia].
Qed.

(** *** The failures of make_request *)

(** X5.  A transport failure: when urlopen raises a URLError that is no
    HTTPError, make_request raises Exception("Request failed: <str of the
    URLError>") with the URLError as its cause, and no further request
    goes out.  So it is when the first exchange fails: the call is not
    repeated. *)
Theorem make_request_transport_error url method headers data max_redirects w
    req hs d e :
  build_request url method headers data = Gives (req, hs, d) ->
  exn_class_of e = URLError ->
  (forall w1,
      urlopen req w = (w1, Raise e) ->
      make_request url method headers data max_redirects w
      = (w1, Raise (Exn Exception ("Request failed: " ++ exn_str e) None None (Some e))))
  /\ (net (length (sent w)) req = Fails e ->
      make_request url method headers data max_redirects w
      = (pushed req w,
         Raise (Exn Exception ("Request failed: " ++ exn_str e) None None (Some e)))).
Proof.
  intros Hbuilt Hclass.
  assert (Hraise : forall w1,
             urlopen req w = (w1, Raise e) ->
             make_request url method headers data max_redirects w
             = (w1, Raise (Exn Exception ("Request failed: " ++ exn_str e)
                             None None (Some e)))).
  { intros w1 Hopen.
    rewrite (make_request_on_failure _ _ _ _ _ _ _ _ _ _ _ Hbuilt Hopen), Hclass.
    reflexivity. }
  split; [exact Hraise |].
  intros Hnet. apply Hraise.
  unfold urlopen. rewrite opener_open_turn.
  unfold opener_turn, bind, exchange. rewrite Hnet. reflexivity.
Qed.

(** X6.  An HTTP error: when urlopen raises HTTPError with status [code],
    make_request raises Exception("Request failed with status <code>")
    whatever the status, whose cause is the HTTPError with the attribute
    response = { status, data, headers }; data is the body decoded as for
    a success, and {} when the body cannot be read or decoded or json.loads
    raises for it; no further request goes out. *)
Theorem make_request_http_error url method headers data max_redirects w
    req hs d w1 e code hdrs fp :
  build_request url method headers data = Gives (req, hs, d) ->
  urlopen req w = (w1, Raise e) ->
  exn_class_of e = HTTPError code hdrs fp ->
  let data_of_error :=
    match fp with
    | ReadText response_data =>
        match parse_body response_data with
        | Gives v => v
        | Throws _ => VDict ∅
        end
    | _ => VDict ∅
    end in
  snd (make_request url method headers data max_redirects w)
  = Raise (Exn Exception ("Request failed with status " ++ pretty code) None None
             (Some (set_response e
                      (VDict {[ "status" := VInt code;
                                "data" := data_of_error;
                                "headers" := VDict (msg_dict hdrs) ]}))))
  /\ sent (fst (make_request url method headers data max_redirects w)) = sent w1.
Proof.
  intros Hbuilt Hopen Hclass data_of_error.
  rewrite (make_request_on_failure _ _ _ _ _ _ _ _ _ _ _ Hbuilt Hopen), Hclass.
  split; [reflexivity |].
  destruct fp; reflexivity.
Qed.

(** X7.  An exception that is neither HTTPError nor URLError leaves
    make_request as it is, not wrapped: one that urlopen raises, one raised
    while the body of a response is read or decoded, and one that
    json.loads raises other than JSONDecodeError. *)
Theorem make_request_other_errors_unwrapped url method headers data max_redirects w
    req hs d e :
  build_request url method headers data = Gives (req, hs, d) ->
  passes_handlers e = true ->
  (forall w1,
      urlopen req w = (w1, Raise e) ->
      make_request url method headers data max_redirects w = (w1, Raise e))
  /\ (forall w1 r code,
        urlopen req w = (w1, Return r) ->
        status r = Some code ->
        resp_body r = ReadFails e \/ resp_body r = Undecodable e ->
        make_request url method headers data max_redirects w = (w1, Raise e))
  /\ (forall w1 r code text,
        urlopen req w = (w1, Return r) ->
        status r = Some code ->
        resp_body r = ReadText text ->
        nonempty (strip text) = true ->
        json_loads text = Throws e ->
        exn_class_of e <> JSONDecodeError ->
        make_request url method headers data max_redirects w = (w1, Raise e)).
Proof.
  intros Hbuilt Hpass. unfold passes_handlers in Hpass. repeat split.
  - intros w1 Hopen.
    rewrite (make_request_on_failure _ _ _ _ _ _ _ _ _ _ _ Hbuilt Hopen).
    destruct (exn_class_of e); try discriminate; reflexivity.
  - intros w1 r code Hopen Hstatus Hbody.
    rewrite (make_request_on_response _ _ _ _ _ _ _ _ _ _ _ _ Hbuilt Hopen Hstatus).
    rewrite with_handlers_runs.
    destruct Hbody as [-> | ->]; simpl;
      destruct (exn_class_of e); try discriminate; reflexivity.
  - intros w1 r code text Hopen Hstatus Hbody Hstrip Hloads Hclass.
    rewrite (make_request_terminal _ _ _ _ _ _ _ _ _ _ _ _ _
               Hbuilt Hopen Hstatus Hbody).
    rewrite with_handlers_runs, lift_runs. unfold parse_body.
    rewrite Hstrip, Hloads.
    destruct (exn_class_of e) eqn:Hc;
      try discriminate Hpass; try (now contradiction Hclass);
      simpl; rewrite Hc; reflexivity.
Qed.

(** X20.  A response without a status: for a URL that is not HTTP (file,
    ftp, data) urlopen hands back a response whose status is None, the
    comparison of line 74 raises TypeError, and that error leaves
    make_request; the body is not read. *)
Theorem make_request_statusless_response url method headers data max_redirects w
    req hs d w1 r :
  build_request url method headers data = Gives (req, hs, d) ->
  urlopen req w = (w1, Return r) ->
  status r = None ->
  make_request url method headers data max_redirects w
  = (w1, Raise (new_exn TypeError
                  "'<=' not supported between instances of 'int' and 'NoneType'")).
Proof.
  intros Hbuilt Hopen Hstatus.
  rewrite make_request_once, (request_once_built _ _ _ _ _ _ _ _ Hbuilt).
  rewrite with_handlers_runs. unfold bind at 1. rewrite Hopen.
  unfold answer_of. unfold bind at 1. rewrite lift_runs.
  unfold is_redirect. rewrite Hstatus. reflexivity.
Qed.

(** *** The steps of the cycle, case by case *)

Lemma log_error_plain context error w :
  exn_response error = None ->
  exn_traceback error = None ->
  log_error context error w
  = (logged "ERROR" (context ++ ": " ++ exn_str error) w, Return tt).
Proof.
  intros Hresponse Htraceback. unfold log_error, bind.
  rewrite log_returns, Hresponse, Htraceback. reflexivity.
Qed.

Lemma get_current_ip_on_raise w w2 error :
  make_request (SERVER_URL ++ "/api/ip") "GET" None NoData 5
    (logged "INFO" "Detecting public IP address..." w) = (w2, Raise error) ->
  get_current_ip w
  = (fst (log_error "Failed to detect IP address" error w2),
     Raise (new_exn Exception "Failed to detect IP address")).
Proof.
  intros Hcall.
  unfold get_current_ip, try_except. unfold bind at 1. rewrite log_returns.
  unfold bind at 1. rewrite Hcall.
  unfold bind at 1. rewrite log_error_returns. reflexivity.
Qed.

Lemma get_current_ip_on_answer w w2 (d : gmap string value) ip :
  make_request (SERVER_URL ++ "/api/ip") "GET" None NoData 5
    (logged "INFO" "Detecting public IP address..." w) = (w2, Return (VDict d)) ->
  d !! "ip" = Some ip ->
  get_current_ip w
  = (logged "INFO" ("Successfully detected IP: " ++ py_str ip) w2, Return ip).
Proof.
  intros Hcall Hip.
  unfold get_current_ip, try_except. unfold bind at 1. rewrite log_returns.
  unfold bind at 1. rewrite Hcall.
  unfold bind, getitem. rewrite Hip. simpl. rewrite ?Hip. reflexivity.
Qed.

Lemma check_on_detect_failure w w1 error :
  get_current_ip w = (w1, Raise error) ->
  check_and_update_ip w = (retry_logged error w1, Return tt).
Proof.
  intros Hip. unfold check_and_update_ip, try_except, bind. rewrite Hip.
  rewrite !log_returns. reflexivity.
Qed.

(** What update_dns does once the request has returned the dict [d]. *)
Lemma update_dns_on_answer ip w w2 (d : gmap string value) :
  update_call ip (updating ip w) = (w2, Return (VDict d)) ->
  update_dns ip w =
  try_except
    (success <- ret (default VNone (d !! "success")) ;;
     (if truthy success then
        result <- ret (default (VDict ∅) (d !! "result")) ;;
        unchanged <-
          (if truthy result then
             status <- dict_get result "status" VNone ;;
             ret (eq_str status "unchanged")
           else ret false) ;;
        if unchanged
        then log "INFO" ("DNS record is already up-to-date (" ++ py_str ip ++ ")")
        else log "INFO" ("DNS record updated successfully to " ++ py_str ip)
      else ret tt) ;;
     ret (VDict d))
    (fun error => log_error "Failed to update DNS record" error ;; raise error) w2.
Proof.
  intros Hcall.
  unfold update_dns, try_except. unfold bind at 1. rewrite log_returns.
  cbv zeta. fold (updating ip w). change (make_request _ "POST" _ _ 5) with (update_call ip).
  unfold bind at 1. rewrite Hcall. reflexivity.
Qed.

(** X8.  An answer of the update endpoint whose "success" entry is missing
    or false in Python ({ "success": false }, {}, { "data": ... } of a body
    that is no JSON): update_dns raises nothing, logs nothing more and
    returns the answer as it is. *)
Theorem update_dns_unsuccessful_is_silent ip w w2 (d : gmap string value) :
  update_call ip (updating ip w) = (w2, Return (VDict d)) ->
  truthy (default VNone (d !! "success")) = false ->
  update_dns ip w = (w2, Return (VDict d)).
Proof.
  intros Hcall Hfalse. rewrite (update_dns_on_answer _ _ _ _ Hcall).
  unfold try_except, bind, ret. now rewrite Hfalse.
Qed.

(** X9.  A successful answer without a usable "result": when the entry is
    missing or false in Python (null, {}, "", 0), update_dns logs "DNS
    record updated successfully to <ip>" and returns the answer. *)
Theorem update_dns_result_missing ip w w2 (d : gmap string value) :
  update_call ip (updating ip w) = (w2, Return (VDict d)) ->
  truthy (default VNone (d !! "success")) = true ->
  truthy (default (VDict ∅) (d !! "result")) = false ->
  update_dns ip w
  = (logged "INFO" ("DNS record updated successfully to " ++ py_str ip) w2,
     Return (VDict d)).
Proof.
  intros Hcall Hsuccess Hresult. rewrite (update_dns_on_answer _ _ _ _ Hcall).
  unfold try_except, bind, ret. rewrite Hsuccess, Hresult.
  rewrite log_returns. reflexivity.
Qed.

(** X10.  A successful answer whose "result" is true in Python but no dict
    (a string, a number, a list, true): reading its status fails, and
    update_dns logs and raises AttributeError("'<type>' object has no
    attribute 'get'") without logging an outcome. *)
Theorem update_dns_result_not_dict ip w w2 (d : gmap string value) result :
  update_call ip (updating ip w) = (w2, Return (VDict d)) ->
  truthy (default VNone (d !! "success")) = true ->
  d !! "result" = Some result ->
  truthy result = true ->
  (forall r, result <> VDict r) ->
  let error :=
    new_exn AttributeError ("'" ++ type_name result ++ "' object has no attribute 'get'") in
  update_dns ip w
  = (logged "ERROR" ("Failed to update DNS record: " ++ exn_str error) w2,
     Raise error).
Proof.
  intros Hcall Hsuccess Hresult Htruthy Hshape error.
  rewrite (update_dns_on_answer _ _ _ _ Hcall).
  unfold try_except, bind, ret. rewrite Hsuccess, Hresult. simpl. rewrite Htruthy.
  destruct result; try (now contradiction (Hshape d0)); reflexivity.
Qed.

(** *** Which requests the cycle makes *)

Lemma offline_log level message : offline (log level message).
Proof. intros w w' o. rewrite log_returns. now intros [= <- <-]. Qed.

Lemma offline_now : offline now.
Proof. now intros w w' o [= <- <-]. Qed.

Lemma offline_try_except {A} (body : M A) (handler : exn -> M A) :
  offline body -> (forall e, offline (handler e)) -> offline (try_except body handler).
Proof.
  intros Hm Hk w w' o. unfold try_except.
  destruct (body w) as [w1 [a | e | b]] eqn:Hrun; specialize (Hm _ _ _ Hrun).
  - now intros [= <- <-].
  - intros Hcont. rewrite (Hk e _ _ _ Hcont). exact Hm.
  - now intros [= <- <-].
Qed.

Lemma offline_log_error context error : offline (log_error context error).
Proof.
  unfold log_error.
  apply offline_bind; [apply offline_log | intros _].
  apply offline_bind; [| intros _].
  - destruct (exn_response error) as [r |]; [destruct (truthy r) |];
      auto using offline_log, offline_ret.
  - destruct (exn_traceback error) as [tb |];
      [destruct (truthy (opt_str environ_DEBUG)) |];
      auto using offline_log, offline_ret.
Qed.

Lemma offline_getitem v key : offline (getitem v key).
Proof.
  unfold getitem. destruct v; try apply offline_raise.
  destruct (d !! key); [apply offline_ret | apply offline_raise].
Qed.

Lemma offline_dict_get v key dflt : offline (dict_get v key dflt).
Proof. unfold dict_get. destruct v; first [apply offline_ret | apply offline_raise]. Qed.

(** A function of the shape of get_current_ip and update_dns (a log line,
    one call, then steps and a handler that make no request) makes the
    requests of that call and no other. *)
Lemma sent_around_call {A B} level message (call : M A) (rest : A -> M B)
    (handler : exn -> M B) w w' o :
  (forall a, offline (rest a)) ->
  (forall e, offline (handler e)) ->
  try_except (log level message ;; a <- call ;; rest a) handler w = (w', o) ->
  exists w2 o2, call (logged level message w) = (w2, o2) /\ sent w' = sent w2.
Proof.
  intros Hrest Hhandler. unfold try_except. unfold bind at 1. rewrite log_returns.
  unfold bind at 1.
  destruct (call (logged level message w)) as [w2 [a | e | b]] eqn:Hcall.
  - destruct (rest a w2) as [w3 [x | e | b]] eqn:Htail;
      pose proof (Hrest _ _ _ _ Htail) as Hkept.
    + intros [= <- <-]. eauto.
    + intros Hcont. apply Hhandler in Hcont. exists w2. eexists. split; [reflexivity |].
      congruence.
    + intros [= <- <-]. eauto.
  - intros Hcont. apply Hhandler in Hcont. eauto.
  - intros [= <- <-]. eauto.
Qed.

Lemma offline_get_current_ip_rest response :
  offline (ip <- getitem response "ip" ;;
           log "INFO" ("Successfully detected IP: " ++ py_str ip) ;;
           getitem response "ip").
Proof.
  apply offline_bind; [apply offline_getitem | intros ip].
  apply offline_bind; [apply offline_log | intros _; apply offline_getitem].
Qed.

Lemma offline_update_dns_rest ip response :
  offline (success <- dict_get response "success" VNone ;;
           (if truthy success then
              result <- dict_get response "result" (VDict ∅) ;;
              unchanged <-
                (if truthy result then
                   status <- dict_get result "status" VNone ;;
                   ret (eq_str status "unchanged")
                 else ret false) ;;
              if unchanged
              then log "INFO" ("DNS record is already up-to-date (" ++ py_str ip ++ ")")
              else log "INFO" ("DNS record updated successfully to " ++ py_str ip)
            else ret tt) ;;
           ret response).
Proof.
  apply offline_bind; [apply offline_dict_get | intros success].
  apply offline_bind; [| intros _; apply offline_ret].
  destruct (truthy success); [| apply offline_ret].
  apply offline_bind; [apply offline_dict_get | intros result].
  apply offline_bind.
  - destruct (truthy result); [| apply offline_ret].
    apply offline_bind; [apply offline_dict_get | intros status; apply offline_ret].
  - intros unchanged. destruct unchanged; apply offline_log.
Qed.

Lemma offline_failure_handler context (last : exn -> exn) e :
  offline (log_error context e ;; raise (A := value) (last e)).
Proof. apply offline_bind; [apply offline_log_error | intros _; apply offline_raise]. Qed.

(** X11.  The requests of get_current_ip: none when urllib does not take
    the URL {SERVER_URL}/api/ip; otherwise the request for that URL with
    the method GET, then at most 37 the redirect handler makes.  None of
    them has data or a header of the script's: the token is in none. *)
Theorem get_current_ip_requests w :
  exists issued,
    sent (fst (get_current_ip w)) = (sent w ++ issued)%list
    /\ (length issued <= 38)%nat
    /\ Forall (fun req => req_headers req = [] /\ req_data req = NoData) issued
    /\ (url_accepted (SERVER_URL ++ "/api/ip") -> head issued = Some ip_request)
    /\ (~ url_accepted (SERVER_URL ++ "/api/ip") -> issued = []).
Proof.
  destruct (get_current_ip w) as [w' o] eqn:Hrun.
  unfold get_current_ip in Hrun.
  apply sent_around_call in Hrun as (w2 & o2 & Hcall & Hkept);
    [| apply offline_get_current_ip_rest
     | intros e; apply (offline_failure_handler _ (fun _ => _))].
  apply make_request_requests in Hcall.
  cbn [fst]. rewrite Hkept. clear Hkept.
  destruct (build_request (SERVER_URL ++ "/api/ip") "GET" None NoData)
    as [[[req hs] d] | e] eqn:Hbuilt.
  - assert (Hreq : req = ip_request).
    { revert Hbuilt. unfold build_request. simpl default.
      destruct (Request _ [] false "GET") as [r |] eqn:Hreq; [| discriminate].
      apply Request_gives in Hreq. subst r. now intros [= <- _ _]. }
    subst req. destruct Hcall as (urls & Hsent & Hlen).
    eexists. split; [exact Hsent |]. repeat split.
    + simpl. rewrite length_map. lia.
    + constructor; [now split |].
      apply Forall_forall. intros later Hin.
      apply list_elem_of_In, in_map_iff in Hin as (u & <- & _). now split.
    + intros Hno. contradiction Hno.
      revert Hbuilt. unfold build_request, Request, url_accepted. simpl default.
      destruct (unknown_url_type _); [discriminate |].
      destruct (request_host_error _); [discriminate | auto].
  - exists []. rewrite app_nil_r. repeat split; [exact Hcall | simpl; lia | constructor |].
    intros Hurl. now rewrite (build_ip_request Hurl) in Hbuilt.
Qed.

(** X12.  The requests of update_dns, when urllib takes the URL and [text]
    is the JSON text of { "ip": ip }: first the POST of
    {SERVER_URL}/api/dns/update with the headers Authorization: Bearer
    <TOKEN> and Content-type: application/json and [text] as its data; then
    at most 37 requests of the redirect handler, each without data and
    without a method of its own (a GET), without Content-type, and with
    the Authorization header: the token goes to wherever a redirect leads. *)
Theorem update_dns_requests ip text w :
  url_accepted (SERVER_URL ++ "/api/dns/update") ->
  json_dumps (VDict {[ "ip" := ip ]}) = Gives text ->
  exists urls,
    sent (fst (update_dns ip w))
    = (sent w ++ update_request text ::
         map (redirected_request [("Authorization", ("Bearer " ++ TOKEN)%string)])
             urls)%list
    /\ (length urls <= 37)%nat.
Proof.
  intros Hurl Hdumps.
  destruct (update_dns ip w) as [w' o] eqn:Hrun.
  unfold update_dns in Hrun. cbv zeta in Hrun.
  apply sent_around_call in Hrun as (w2 & o2 & Hcall & Hkept);
    [| apply offline_update_dns_rest
     | intros e; apply (offline_failure_handler _ (fun e => e))].
  apply make_request_requests in Hcall.
  change (build_request _ _ _ _)
    with (build_request (SERVER_URL ++ "/api/dns/update") "POST" (Some update_headers)
            (Obj (VDict {[ "ip" := ip ]}))) in Hcall.
  rewrite (build_update_request _ _ Hurl Hdumps) in Hcall.
  cbn [fst]. rewrite Hkept. exact Hcall.
Qed.

(** *** How many requests a turn makes *)

Lemma requests_within_offline {A} (m : M A) : offline m -> requests_within 0 0 m.
Proof.
  intros Hm w w' o Hrun. exists []. rewrite (Hm _ _ _ Hrun), app_nil_r. simpl. auto.
Qed.

Lemma requests_within_bind {A B} lo hi hi' (m : M A) (k : A -> M B) :
  requests_within lo hi m ->
  (forall a, requests_within 0 hi' (k a)) ->
  requests_within lo (hi + hi') (bind m k).
Proof.
  intros Hm Hk w w' o. unfold bind.
  destruct (m w) as [w1 [a | e | b]] eqn:Hrun;
    destruct (Hm _ _ _ Hrun) as (issued & Hsent & Hlen).
  - intros Hcont. destruct (Hk a _ _ _ Hcont) as (more & Hsent' & Hlen').
    exists (issued ++ more)%list. rewrite Hsent', Hsent, <- app_assoc, length_app.
    split; [reflexivity | lia].
  - intros [= <- <-]. exists issued. split; [exact Hsent | lia].
  - intros [= <- <-]. exists issued. split; [exact Hsent | lia].
Qed.

Lemma requests_within_try_except {A} lo hi (body : M A) (handler : exn -> M A) :
  requests_within lo hi body ->
  (forall e, offline (handler e)) ->
  requests_within lo hi (try_except body handler).
Proof.
  intros Hm Hk w w' o. unfold try_except.
  destruct (body w) as [w1 [a | e | b]] eqn:Hrun;
    destruct (Hm _ _ _ Hrun) as (issued & Hsent & Hlen).
  - intros [= <- <-]. eauto.
  - intros Hcont. rewrite (Hk e _ _ _ Hcont). eauto.
  - intros [= <- <-]. eauto.
Qed.

Lemma requests_within_after_log {A} lo hi level message (m : M A) :
  requests_within lo hi m -> requests_within lo hi (log level message ;; m).
Proof.
  intros Hm w w' o. unfold bind. rewrite log_returns.
  intros Hrun. exact (Hm _ _ _ Hrun).
Qed.

Lemma requests_within_get_current_ip : requests_within 0 38 get_current_ip.
Proof.
  unfold get_current_ip.
  apply requests_within_try_except.
  - apply requests_within_after_log.
    apply (requests_within_bind 0 38 0); [apply requests_within_make_request |].
    intros response. apply requests_within_offline, offline_get_current_ip_rest.
  - intros e. apply (offline_failure_handler _ (fun _ => _)).
Qed.

Lemma requests_within_update_dns ip : requests_within 0 38 (update_dns ip).
Proof.
  unfold update_dns.
  apply requests_within_try_except.
  - apply requests_within_after_log.
    apply (requests_within_bind 0 38 0); [apply requests_within_make_request |].
    intros response. apply requests_within_offline, offline_update_dns_rest.
  - intros e. apply (offline_failure_handler _ (fun e => e)).
Qed.

Lemma requests_within_check_and_update_ip : requests_within 0 76 check_and_update_ip.
Proof.
  unfold check_and_update_ip.
  apply requests_within_try_except.
  - apply (requests_within_bind 0 38 38); [apply requests_within_get_current_ip |].
    intros ip. apply (requests_within_bind 0 38 0).
    + apply requests_within_update_dns.
    + intros result. apply requests_within_offline.
      apply offline_bind; [apply offline_now | intros t; apply offline_log].
  - intros e. apply offline_bind; [apply offline_log | intros _; apply offline_log].
Qed.

(** X13.  In one call of check_and_update_ip at most 76 requests go out
    (two calls of make_request, in each at most 38), and when
    get_current_ip raises none goes out after those of get_current_ip: no
    update is posted without an address. *)
Theorem check_and_update_ip_requests w :
  (exists issued,
      sent (fst (check_and_update_ip w)) = (sent w ++ issued)%list
      /\ (length issued <= 76)%nat)
  /\ (forall w1 error,
        get_current_ip w = (w1, Raise error) ->
        sent (fst (check_and_update_ip w)) = sent w1).
Proof.
  split.
  - destruct (check_and_update_ip w) as [w' o] eqn:Hrun.
    destruct (requests_within_check_and_update_ip _ _ _ Hrun) as (issued & Hsent & Hlen).
    exists issued. split; [exact Hsent | lia].
  - intros w1 error Hip. rewrite (check_on_detect_failure _ _ _ Hip). reflexivity.
Qed.

(** *** The main loop, once more *)


(** *** Whole turns *)

Lemma world_ext (w w' : world) :
  console w = console w' -> sent w = sent w' -> ticks w = ticks w' ->
  slept w = slept w' -> delivered w = delivered w' -> w = w'.
Proof. destruct w, w'. simpl. congruence. Qed.

Lemma console_logged level message w :
  console (logged level message w)
  = (console w ++ [line_at (ticks w) level message])%list.
Proof. reflexivity. Qed.

Lemma sent_logged level message w : sent (logged level message w) = sent w.
Proof. reflexivity. Qed.

Lemma ticks_logged level message w : ticks (logged level message w) = S (ticks w).
Proof. reflexivity. Qed.

Lemma slept_logged level message w : slept (logged level message w) = slept w.
Proof. reflexivity. Qed.

Lemma delivered_logged level message w :
  delivered (logged level message w) = delivered w.
Proof. reflexivity. Qed.

Lemma console_pushed req w : console (pushed req w) = console w.
Proof. reflexivity. Qed.

Lemma sent_pushed req w : sent (pushed req w) = (sent w ++ [req])%list.
Proof. reflexivity. Qed.

Lemma ticks_pushed req w : ticks (pushed req w) = ticks w.
Proof. reflexivity. Qed.

Lemma slept_pushed req w : slept (pushed req w) = slept w.
Proof. reflexivity. Qed.

Lemma delivered_pushed req w : delivered (pushed req w) = delivered w.
Proof. reflexivity. Qed.

(** Reads the fields of a world built by [logged], [pushed] and [World]. *)
Ltac world_fields :=
  repeat first
    [ rewrite console_logged | rewrite sent_logged | rewrite ticks_logged
    | rewrite slept_logged | rewrite delivered_logged
    | rewrite console_pushed | rewrite sent_pushed | rewrite ticks_pushed
    | rewrite slept_pushed | rewrite delivered_pushed
    | progress cbn [console sent ticks slept delivered Nat.add] ].

(** What urlopen does when the first exchange settles it. *)
Lemma urlopen_on_failure req w e :
  net (length (sent w)) req = Fails e ->
  urlopen req w = (pushed req w, Raise e).
Proof.
  intros Hnet. unfold urlopen. rewrite opener_open_turn.
  unfold opener_turn, bind, exchange. rewrite Hnet. reflexivity.
Qed.

Lemma urlopen_on_success req w r code :
  net (length (sent w)) req = Replied r ->
  status r = Some code ->
  success_status code = true ->
  urlopen req w = (pushed req w, Return r).
Proof.
  intros Hnet Hstatus Hcode. unfold urlopen. rewrite opener_open_turn.
  unfold opener_turn, bind, exchange. rewrite Hnet, Hstatus.
  unfold success_status in Hcode. rewrite Hcode. reflexivity.
Qed.

Lemma urlopen_on_error_status req w r code :
  net (length (sent w)) req = Replied r ->
  status r = Some code ->
  error_status code = true ->
  urlopen req w
  = (pushed req w,
     Raise (http_error code (reason r) (resp_headers r) (resp_body r))).
Proof.
  intros Hnet Hstatus Hcode. unfold urlopen. rewrite opener_open_turn.
  unfold opener_turn, bind, exchange. rewrite Hnet, Hstatus.
  unfold error_status in Hcode. apply andb_prop in Hcode as [Hno Hplain].
  apply negb_true_iff in Hno, Hplain. rewrite Hno, Hplain. reflexivity.
Qed.

Lemma make_request_answers url method headers data max_redirects w req hs d r code
    text v :
  build_request url method headers data = Gives (req, hs, d) ->
  net (length (sent w)) req = Replied r ->
  status r = Some code ->
  success_status code = true ->
  resp_body r = ReadText text ->
  parse_body text = Gives v ->
  make_request url method headers data max_redirects w = (pushed req w, Return v).
Proof.
  intros Hbuilt Hnet Hstatus Hcode Hbody Hparse.
  rewrite (make_request_terminal _ _ _ _ _ _ _ _ _ _ _ _ _ Hbuilt
             (urlopen_on_success _ _ _ _ Hnet Hstatus Hcode) Hstatus Hbody).
  now rewrite with_handlers_runs, lift_runs, Hparse.
Qed.

(** X15.  A whole turn with the server out of reach: when the exchange for
    {SERVER_URL}/api/ip fails with a URLError, check_and_update_ip makes
    that one request, logs exactly four lines (detecting; "Failed to
    detect IP address: Request failed: <the URLError>"; "Update cycle
    failed: Failed to detect IP address"; the retry notice) and returns. *)
Theorem turn_when_unreachable w e :
  url_accepted (SERVER_URL ++ "/api/ip") ->
  net (length (sent w)) ip_request = Fails e ->
  exn_class_of e = URLError ->
  let t := ticks w in
  check_and_update_ip w
  = (World
       (console w ++
        [line_at t "INFO" "Detecting public IP address...";
         line_at (1 + t) "ERROR"
           ("Failed to detect IP address: Request failed: " ++ exn_str e);
         line_at (2 + t) "ERROR" "Update cycle failed: Failed to detect IP address";
         line_at (3 + t) "INFO" "Will retry in 5.0 minutes"])
       (sent w ++ [ip_request])
       (4 + t) (slept w) (delivered w),
     Return tt).
Proof.
  intros Hurl Hnet Hclass t. subst t.
  set (w1 := logged "INFO" "Detecting public IP address..." w).
  assert (Hopen : urlopen ip_request w1 = (pushed ip_request w1, Raise e)).
  { apply urlopen_on_failure. exact Hnet. }
  pose proof (make_request_on_failure (SERVER_URL ++ "/api/ip") "GET" None NoData 5
                w1 ip_request [] NoData (pushed ip_request w1) e
                (build_ip_request Hurl) Hopen) as Hcall.
  rewrite Hclass in Hcall. subst w1.
  apply get_current_ip_on_raise in Hcall.
  rewrite log_error_plain in Hcall by reflexivity.
  rewrite (check_on_detect_failure _ _ _ Hcall).
  unfold retry_logged, logged, pushed, log_line, line_at. simpl.
  rewrite <- !app_assoc. reflexivity.
Qed.

(** X21.  A whole turn when no request can be built for
    {SERVER_URL}/api/ip, as with the placeholder of the script left in
    place, a URL without a scheme for which Request raises ValueError: no
    request goes out, and check_and_update_ip logs four lines (detecting;
    "Failed to detect IP address: <the error>"; "Update cycle failed:
    Failed to detect IP address"; the retry notice) and returns. *)
Theorem turn_when_url_is_rejected w e :
  build_request (SERVER_URL ++ "/api/ip") "GET" None NoData = Throws e ->
  exn_response e = None ->
  exn_traceback e = None ->
  let t := ticks w in
  check_and_update_ip w
  = (World
       (console w ++
        [line_at t "INFO" "Detecting public IP address...";
         line_at (1 + t) "ERROR" ("Failed to detect IP address: " ++ exn_str e);
         line_at (2 + t) "ERROR" "Update cycle failed: Failed to detect IP address";
         line_at (3 + t) "INFO" "Will retry in 5.0 minutes"])
       (sent w) (4 + t) (slept w) (delivered w),
     Return tt).
Proof.
  intros Hbuilt Hresponse Htraceback t. subst t.
  pose proof (make_request_unbuilt (SERVER_URL ++ "/api/ip") "GET" None NoData 5
                (logged "INFO" "Detecting public IP address..." w) e Hbuilt) as Hcall.
  apply get_current_ip_on_raise in Hcall.
  rewrite (log_error_plain _ _ _ Hresponse Htraceback) in Hcall.
  rewrite (check_on_detect_failure _ _ _ Hcall).
  unfold retry_logged, logged, log_line, line_at. simpl.
  rewrite <- !app_assoc. reflexivity.
Qed.

Lemma update_dns_on_success ip w w2 (d : gmap string value) success
    (result : gmap string value) :
  update_call ip (updating ip w) = (w2, Return (VDict d)) ->
  d !! "success" = Some success ->
  truthy success = true ->
  d !! "result" = Some (VDict result) ->
  update_dns ip w
  = (logged "INFO"
       (if eq_str (default VNone (result !! "status")) "unchanged"
        then "DNS record is already up-to-date (" ++ py_str ip ++ ")"
        else "DNS record updated successfully to " ++ py_str ip) w2,
     Return (VDict d)).
Proof.
  intros Hcall Hsuccess Htrue Hresult. rewrite (update_dns_on_answer _ _ _ _ Hcall).
  unfold try_except, bind, dict_get, ret. rewrite Hsuccess. simpl. rewrite Htrue.
  rewrite Hresult. simpl.
  destruct (bool_decide (result = ∅)) eqn:Hempty; simpl.
  - apply bool_decide_eq_true in Hempty. subst result.
    rewrite lookup_empty. reflexivity.
  - destruct (eq_str (default VNone (result !! "status")) "unchanged");
      rewrite log_returns; reflexivity.
Qed.

(** X16.  A whole turn with the server answering: when the exchange for
    {SERVER_URL}/api/ip is answered with a 2xx response that reads as a
    dict with an "ip" entry and the next one, for the update, with a 2xx
    response that reads as a dict with a true "success" and a dict
    "result", check_and_update_ip makes exactly the two requests, the
    second carrying the address just detected, logs exactly five lines
    (detecting, detected, updating, the outcome, the time of the next
    check, UPDATE_INTERVAL seconds after the clock reading) and returns. *)
Theorem turn_when_server_answers w r1 code1 text1 (d1 : gmap string value) ip body
    r2 code2 text2 (d2 : gmap string value) success (result : gmap string value) :
  url_accepted (SERVER_URL ++ "/api/ip") ->
  url_accepted (SERVER_URL ++ "/api/dns/update") ->
  net (length (sent w)) ip_request = Replied r1 ->
  status r1 = Some code1 ->
  success_status code1 = true ->
  resp_body r1 = ReadText text1 ->
  parse_body text1 = Gives (VDict d1) ->
  d1 !! "ip" = Some ip ->
  json_dumps (VDict {[ "ip" := ip ]}) = Gives body ->
  net (S (length (sent w))) (update_request body) = Replied r2 ->
  status r2 = Some code2 ->
  success_status code2 = true ->
  resp_body r2 = ReadText text2 ->
  parse_body text2 = Gives (VDict d2) ->
  d2 !! "success" = Some success ->
  truthy success = true ->
  d2 !! "result" = Some (VDict result) ->
  let t := ticks w in
  check_and_update_ip w
  = (World
       (console w ++
        [line_at t "INFO" "Detecting public IP address...";
         line_at (1 + t) "INFO" ("Successfully detected IP: " ++ py_str ip);
         line_at (2 + t) "INFO"
           ("Updating DNS record for " ++ DOMAIN ++ " to " ++ py_str ip ++ "...");
         line_at (3 + t) "INFO"
           (if eq_str (default VNone (result !! "status")) "unchanged"
            then "DNS record is already up-to-date (" ++ py_str ip ++ ")"
            else "DNS record updated successfully to " ++ py_str ip);
         line_at (5 + t) "INFO"
           ("Next check scheduled at "
            ++ strftime_HMS (clock (4 + t) + UPDATE_INTERVAL))])
       (sent w ++ [ip_request; update_request body])
       (6 + t) (slept w) (delivered w),
     Return tt).
Proof.
  intros Hurl1 Hurl2 Hnet1 Hstatus1 Hcode1 Hbody1 Hparse1 Hip Hdumps
    Hnet2 Hstatus2 Hcode2 Hbody2 Hparse2 Hsuccess Htrue Hresult t.
  subst t.
  pose proof (make_request_answers (SERVER_URL ++ "/api/ip") "GET" None NoData 5
                (logged "INFO" "Detecting public IP address..." w)
                ip_request [] NoData r1 code1 text1 (VDict d1)
                (build_ip_request Hurl1) Hnet1 Hstatus1 Hcode1 Hbody1 Hparse1) as Hcall1.
  pose proof (get_current_ip_on_answer _ _ _ _ Hcall1 Hip) as Hget.
  set (w2 := logged "INFO" ("Successfully detected IP: " ++ py_str ip) _) in Hget.
  assert (Hnet2' : net (length (sent (updating ip w2))) (update_request body) = Replied r2).
  { subst w2. cbn [updating logged pushed sent]. rewrite length_app.
    cbn [length]. rewrite Nat.add_1_r. exact Hnet2. }
  pose proof (make_request_answers (SERVER_URL ++ "/api/dns/update") "POST"
                (Some update_headers) (Obj (VDict {[ "ip" := ip ]})) 5 (updating ip w2)
                (update_request body) update_headers (Bytes (encode_utf8 body))
                r2 code2 text2 (VDict d2)
                (build_update_request ip body Hurl2 Hdumps)
                Hnet2' Hstatus2 Hcode2 Hbody2 Hparse2) as Hcall2.
  change (make_request _ _ _ _ _) with (update_call ip) in Hcall2.
  pose proof (update_dns_on_success _ _ _ _ _ _ Hcall2 Hsuccess Htrue Hresult) as Hdns.
  unfold check_and_update_ip, try_except. unfold bind at 1. rewrite Hget.
  unfold bind at 1. rewrite Hdns.
  unfold bind, now. rewrite log_returns.
  subst w2. unfold updating. f_equal.
  apply world_ext; world_fields; rewrite <- ?app_assoc; reflexivity.
Qed.


Lemma check_on_update_failure w w1 ip w2 error :
  get_current_ip w = (w1, Return ip) ->
  update_dns ip w1 = (w2, Raise error) ->
  check_and_update_ip w = (retry_logged error w2, Return tt).
Proof.
  intros Hip Hdns. unfold check_and_update_ip, try_except, bind.
  rewrite Hip, Hdns, !log_returns. reflexivity.
Qed.

Lemma update_dns_on_raise ip w w2 error :
  update_call ip (updating ip w) = (w2, Raise error) ->
  update_dns ip w
  = (fst (log_error "Failed to update DNS record" error w2), Raise error).
Proof.
  intros Hcall.
  unfold update_dns, try_except. unfold bind at 1. rewrite log_returns.
  cbv zeta. fold (updating ip w).
  change (make_request _ "POST" _ _ 5) with (update_call ip).
  unfold bind at 1. rewrite Hcall.
  unfold bind at 1. rewrite log_error_returns. reflexivity.
Qed.

(** X17.  A whole turn in which the update is refused: the address is
    detected, the exchange for the update is answered with the status
    [code] of an HTTP error (its body is read or fails to read), and
    check_and_update_ip logs "Failed to update DNS record: Request failed
    with status <code>" and then "Update cycle failed: Request failed with
    status <code>": the message of make_request reaches the cycle log as it
    is, where a failed detection shows only the generic text. *)
Theorem turn_when_update_is_refused w r1 code1 text1 (d1 : gmap string value) ip body
    r2 code :
  url_accepted (SERVER_URL ++ "/api/ip") ->
  url_accepted (SERVER_URL ++ "/api/dns/update") ->
  net (length (sent w)) ip_request = Replied r1 ->
  status r1 = Some code1 ->
  success_status code1 = true ->
  resp_body r1 = ReadText text1 ->
  parse_body text1 = Gives (VDict d1) ->
  d1 !! "ip" = Some ip ->
  json_dumps (VDict {[ "ip" := ip ]}) = Gives body ->
  net (S (length (sent w))) (update_request body) = Replied r2 ->
  status r2 = Some code ->
  error_status code = true ->
  (forall s, resp_body r2 <> ReadInterrupted s) ->
  let t := ticks w in
  check_and_update_ip w
  = (World
       (console w ++
        [line_at t "INFO" "Detecting public IP address...";
         line_at (1 + t) "INFO" ("Successfully detected IP: " ++ py_str ip);
         line_at (2 + t) "INFO"
           ("Updating DNS record for " ++ DOMAIN ++ " to " ++ py_str ip ++ "...");
         line_at (3 + t) "ERROR"
           ("Failed to update DNS record: Request failed with status " ++ pretty code);
         line_at (4 + t) "ERROR"
           ("Update cycle failed: Request failed with status " ++ pretty code);
         line_at (5 + t) "INFO" "Will retry in 5.0 minutes"])
       (sent w ++ [ip_request; update_request body])
       (6 + t) (slept w) (delivered w),
     Return tt).
Proof.
  intros Hurl1 Hurl2 Hnet1 Hstatus1 Hcode1 Hbody1 Hparse1 Hip Hdumps
    Hnet2 Hstatus2 Hcode2 Hread t. subst t.
  pose proof (make_request_answers (SERVER_URL ++ "/api/ip") "GET" None NoData 5
                (logged "INFO" "Detecting public IP address..." w)
                ip_request [] NoData r1 code1 text1 (VDict d1)
                (build_ip_request Hurl1) Hnet1 Hstatus1 Hcode1 Hbody1 Hparse1) as Hcall1.
  pose proof (get_current_ip_on_answer _ _ _ _ Hcall1 Hip) as Hget.
  set (w2 := logged "INFO" ("Successfully detected IP: " ++ py_str ip) _) in Hget.
  assert (Hnet2' : net (length (sent (updating ip w2))) (update_request body) = Replied r2).
  { subst w2. cbn [updating logged pushed sent]. rewrite length_app.
    cbn [length]. rewrite Nat.add_1_r. exact Hnet2. }
  pose proof (urlopen_on_error_status (update_request body) (updating ip w2) r2 code
                Hnet2' Hstatus2 Hcode2) as Hopen2.
  pose proof (make_request_on_failure (SERVER_URL ++ "/api/dns/update") "POST"
                (Some update_headers) (Obj (VDict {[ "ip" := ip ]})) 5 (updating ip w2)
                (update_request body) update_headers (Bytes (encode_utf8 body))
                _ _ (build_update_request ip body Hurl2 Hdumps) Hopen2) as Hcall2.
  change (make_request _ _ _ _ _) with (update_call ip) in Hcall2.
  cbn [http_error new_exn exn_class_of] in Hcall2.
  assert (Hafter : after_error_read (resp_body r2)
                     (pushed (update_request body) (updating ip w2))
                   = pushed (update_request body) (updating ip w2)).
  { destruct (resp_body r2) as [x | x | x | s]; try reflexivity.
    now contradiction (Hread s). }
  rewrite Hafter in Hcall2.
  apply update_dns_on_raise in Hcall2.
  rewrite log_error_plain in Hcall2 by reflexivity. cbn [fst] in Hcall2.
  rewrite (check_on_update_failure _ _ _ _ _ Hget Hcall2).
  subst w2. unfold retry_logged, updating. f_equal.
  apply world_ext; world_fields; rewrite <- ?app_assoc; reflexivity.
Qed.

(** *** Turns and requests *)

Lemma main_step_resources w w' :
  main_step w = Looping w' ->
  (exists issued,
      sent w' = (sent w ++ issued)%list /\ (length issued <= 76)%nat)
  /\ slept w' = (slept w ++ [UPDATE_INTERVAL])%list.
Proof.
  intros Hstep. split.
  - revert Hstep. unfold main_step, cycle, try_except, bind.
    destruct (check_and_update_ip w) as [w1 [[] | e | b]] eqn:Hrun.
    + apply requests_within_check_and_update_ip in Hrun as (issued & Hsent & Hlen).
      unfold sleep. destruct (nap (length (slept w1))) as [s |].
      * rewrite deliver_unwinds. discriminate.
      * intros [= <-]. exists issued. split; [exact Hsent | lia].
    + apply check_and_update_ip_no_raise in Hrun. contradiction.
    + destruct b; discriminate.
  - pose proof (main_step_outcome w) as Hout. rewrite Hstep in Hout. tauto.
Qed.

(** X18.  After n whole turns of the main loop the client has slept n
    times UPDATE_INTERVAL seconds, and at most 76 n requests went out: at
    most 76 per 300 seconds of sleep, whatever the network answers. *)
Theorem run_resources n : forall w w',
  run n w = Looping w' ->
  exists issued,
    sent w' = (sent w ++ issued)%list
    /\ (length issued <= 76 * n)%nat
    /\ slept w' = (slept w ++ repeat UPDATE_INTERVAL n)%list.
Proof.
  induction n as [| n IH]; intros w w'; simpl run.
  - intros [= <-]. exists []. rewrite !app_nil_r. simpl. auto.
  - destruct (main_step w) as [w1 | w1 code] eqn:Hstep; [| discriminate].
    intros Hrest.
    apply main_step_resources in Hstep as [(first & Hsent & Hlen) Hslept].
    apply IH in Hrest as (rest & Hsent' & Hlen' & Hslept').
    exists (first ++ rest)%list. repeat split.
    + rewrite Hsent', Hsent, <- app_assoc. reflexivity.
    + rewrite length_app. lia.
    + rewrite Hslept', Hslept, <- app_assoc. reflexivity.
Qed.

Lemma reaches_run n : forall w, reaches (Looping w) (run n w).
Proof.
  induction n as [| n IH]; intros w; simpl.
  - apply reaches_here.
  - apply reaches_turn. destruct (main_step w) as [w' | w' code].
    + apply IH.
    + apply reaches_here.
Qed.

End Properties.

(** * The theorems at work *)

Import Scenario.

(** With the server unreachable the cycle logs the failure and returns. *)
Lemma check_and_update_ip_absorbs_witness :
  exists w1,
    check_and_update_ip (env := offline_env) w0
    = (retry_logged (env := offline_env)
         (new_exn Exception "Failed to detect IP address") w1,
       Return tt).
Proof.
  eexists.
  apply (proj1 (proj2 (check_and_update_ip_absorbs (env := offline_env) w0))).
  vm_compute. reflexivity.
Defined.

(** C2 (what the code does).  max_redirects has no part in what
    make_request does: with any two caps the call does the same.  Against
    two redirects (302 with a Location) and then the address, a call with
    the cap 1 does not raise "Too many redirects": urlopen follows both
    redirects itself, three requests go out, and make_request returns the
    decoded address. *)
Theorem make_request_redirect_cap_has_no_effect :
  (forall (env : Platform) url method headers data cap cap' w,
      make_request url method headers data cap w
      = make_request url method headers data cap' w)
  /\ exists w',
       make_request (env := two_hops) the_url "GET" None NoData 1 w0
       = (w', Return (VDict {[ "ip" := VStr "203.0.113.7" ]}))
       /\ map req_url (sent w')
          = [the_url; "https://a.example/api/ip"; "https://b.example/api/ip"].
Proof.
  split.
  - intros env url method headers data cap cap' w. apply make_request_any_cap.
  - eexists. split; vm_compute; reflexivity.
Qed.

Lemma loads_rejects_blank s v :
  nonempty (strip s) = false -> loads s <> Gives v.
Proof.
  intros Hblank. unfold loads.
  repeat (case_bool_decide; [subst s; vm_compute in Hblank; discriminate |]).
  discriminate.
Qed.

(** A JSON body is returned decoded, a body that is no JSON is wrapped, an
    empty body gives the empty dict. *)
Lemma make_request_decodes_body_witness :
  snd (make_request (env := body_env ip_text) the_url "GET" None NoData 5 w0)
  = Return (VDict {[ "ip" := VStr "203.0.113.7" ]})
  /\ snd (make_request (env := body_env "<html>busy</html>") the_url "GET" None NoData 5 w0)
     = Return (VDict {[ "data" := VStr "<html>busy</html>" ]})
  /\ snd (make_request (env := body_env "") the_url "GET" None NoData 5 w0)
     = Return (VDict ∅).
Proof.
  split; [| split].
  - pose proof (make_request_decodes_body (env := body_env ip_text)
                  the_url "GET" None NoData 5 w0 get_ip [] NoData
                  (World [] [get_ip] 0 [] []) (ok_response ip_text) 200 ip_text
                  eq_refl eq_refl eq_refl eq_refl) as Hbody.
    cbv zeta in Hbody. destruct Hbody as (Hjson & _ & _).
    rewrite (Hjson (VDict {[ "ip" := VStr "203.0.113.7" ]}) eq_refl);
      [reflexivity |].
    intros s v'. apply loads_rejects_blank.
  - pose proof (make_request_decodes_body (env := body_env "<html>busy</html>")
                  the_url "GET" None NoData 5 w0 get_ip [] NoData
                  (World [] [get_ip] 0 [] []) (ok_response "<html>busy</html>") 200
                  "<html>busy</html>" eq_refl eq_refl eq_refl eq_refl) as Hbody.
    cbv zeta in Hbody. destruct Hbody as (_ & Hwrap & _).
    rewrite (Hwrap no_json eq_refl eq_refl eq_refl). reflexivity.
  - pose proof (make_request_decodes_body (env := body_env "")
                  the_url "GET" None NoData 5 w0 get_ip [] NoData
                  (World [] [get_ip] 0 [] []) (ok_response "") 200 ""
                  eq_refl eq_refl eq_refl eq_refl) as Hbody.
    cbv zeta in Hbody. destruct Hbody as (_ & _ & Hblank).
    rewrite (Hblank eq_refl). reflexivity.
Defined.

(** A body of one space is not empty and is no JSON, yet make_request
    returns the empty dict for it, not { "data": " " }. *)
Lemma make_request_blank_body_counterexample :
  " " <> ""
  /\ json_loads (Platform := body_env " ") " " = Throws no_json
  /\ exn_class_of no_json = JSONDecodeError
  /\ snd (make_request (env := body_env " ") the_url "GET" None NoData 5 w0)
     = Return (VDict ∅)
  /\ VDict ∅ <> VDict {[ "data" := VStr " " ]}.
Proof.
  repeat split.
  - discriminate.
  - intros Heq.
    apply (f_equal (fun v => match v with VDict d => d !! "data" | _ => None end)) in Heq.
    vm_compute in Heq. discriminate.
Qed.

(** C4 (what the code does).  The server answers with status 500 and the
    body {"error":"db down"}, and urlopen raises HTTPError.  make_request
    raises an Exception whose text names the status and which has no
    `response` attribute; the dict with the status, the decoded body and
    the headers is set on the HTTPError, which is only the cause of the
    raised error.  log_error, which reads `error.response`, prints no
    "Server response" line for it. *)
Theorem make_request_http_error_response_on_cause :
  exists w' raised original,
    make_request (env := failing_env) the_update_url "POST" None NoData 5 w0
    = (w', Raise raised)
    /\ exn_class_of raised = Exception
    /\ exn_str raised = "Request failed with status 500"
    /\ exn_response raised = None
    /\ exn_cause raised = Some original
    /\ exn_response original
       = Some (VDict {[ "status" := VInt 500;
                        "data" := VDict {[ "error" := VStr "db down" ]};
                        "headers" := VDict {[ "Content-Type" := VStr "application/json" ]} ]})
    /\ console (fst (log_error (env := failing_env)
                       "Failed to update DNS record" raised w'))
       = ["[13:03:20] ERROR: Failed to update DNS record: Request failed with status 500"].
Proof.
  do 3 eexists. split; [vm_compute; reflexivity |].
  repeat split.
Qed.

(** Server unreachable: the generic error; server answering: the address. *)
Lemma get_current_ip_wraps_failures_witness :
  snd (get_current_ip (env := offline_env) w0)
  = Raise (new_exn Exception "Failed to detect IP address")
  /\ snd (get_current_ip (env := body_env ip_text) w0) = Return (VStr "203.0.113.7").
Proof.
  split.
  - destruct (get_current_ip_wraps_failures (env := offline_env) w0) as (Hraise & _ & _).
    erewrite Hraise; [reflexivity | vm_compute; reflexivity].
  - destruct (get_current_ip_wraps_failures (env := body_env ip_text) w0) as (_ & _ & Hip).
    erewrite Hip; [reflexivity | vm_compute; reflexivity | reflexivity].
Defined.

(** HTTP 500 on the update: update_dns raises the error make_request raised. *)
Lemma update_dns_reraises_unmodified_witness :
  exists w2 error,
    update_call (env := failing_env) (VStr "203.0.113.7")
      (updating (env := failing_env) (VStr "203.0.113.7") w0)
    = (w2, Raise error)
    /\ exn_str error = "Request failed with status 500"
    /\ snd (update_dns (env := failing_env) (VStr "203.0.113.7") w0) = Raise error.
Proof.
  do 2 eexists. split; [vm_compute; reflexivity |]. split; [reflexivity |].
  destruct (update_dns_reraises_unmodified (env := failing_env)
              (VStr "203.0.113.7") w0) as [Hraise _].
  erewrite Hraise; [reflexivity | vm_compute; reflexivity].
Defined.

(** The two answers of the update endpoint and the line each one logs. *)
Lemma update_dns_success_logging_witness :
  (let r := update_dns (env := body_env (result_text "unchanged")) (VStr "203.0.113.7") w0 in
   snd r = Return (result_value "unchanged")
   /\ last (console (fst r))
      = Some "[13:03:21] INFO: DNS record is already up-to-date (203.0.113.7)")
  /\ (let r := update_dns (env := body_env (result_text "ok")) (VStr "203.0.113.7") w0 in
      snd r = Return (result_value "ok")
      /\ last (console (fst r))
         = Some "[13:03:21] INFO: DNS record updated successfully to 203.0.113.7").
Proof.
  split.
  - destruct (update_dns_success_logging (env := body_env (result_text "unchanged"))
                (VStr "203.0.113.7") w0) as [_ Hshape].
    edestruct Hshape as [Hunchanged _];
      [vm_compute; reflexivity | reflexivity | reflexivity | reflexivity |].
    simpl. rewrite Hunchanged; [| reflexivity]. split; reflexivity.
  - destruct (update_dns_success_logging (env := body_env (result_text "ok"))
                (VStr "203.0.113.7") w0) as [_ Hshape].
    edestruct Hshape as [_ Hother];
      [vm_compute; reflexivity | reflexivity | reflexivity | reflexivity |].
    simpl. rewrite Hother; [| vm_compute; discriminate]. split; reflexivity.
Defined.

(** Server unreachable, SIGTERM during the third sleep: two whole turns,
    then exit with code 0. *)
Lemma main_loop_exits_only_on_signal_witness :
  exists w',
    run (env := interrupted_env) 3 w0 = Exited w' 0
    /\ slept w' = [UPDATE_INTERVAL; UPDATE_INTERVAL]
    /\ (length (delivered w0) < length (delivered w'))%nat.
Proof.
  assert (Hrun : exists w',
             run (env := interrupted_env) 3 w0 = Exited w' 0
             /\ slept w' = [UPDATE_INTERVAL; UPDATE_INTERVAL]).
  { eexists. split; vm_compute; reflexivity. }
  destruct Hrun as (w' & Hrun & Hslept).
  exists w'. split; [exact Hrun |]. split; [exact Hslept |].
  pose proof (reaches_run (env := interrupted_env) 3 w0) as Hreach.
  rewrite Hrun in Hreach.
  pose proof (main_loop_exits_only_on_signal (env := interrupted_env) w0)
    as [_ Hreached].
  specialize (Hreached (Exited w' 0) Hreach).
  cbv beta iota in Hreached. exact (proj2 Hreached).
Defined.

(** C9 (what the code does).  The requests of one call are not bounded by
    max_redirects + 1.  With the default cap of 5 and seven redirects
    before the answer, eight requests go out and the call returns; with the
    cap 1 and two redirects, three. *)
Theorem make_request_requests_exceed_cap :
  (exists w' v,
      make_request (env := seven_hops) the_url "GET" None NoData 5 w0 = (w', Return v)
      /\ length (sent w') = 8%nat
      /\ 5 + 1 < Z.of_nat (length (sent w')))
  /\ (exists w' v,
        make_request (env := two_hops) the_url "GET" None NoData 1 w0 = (w', Return v)
        /\ length (sent w') = 3%nat
        /\ 1 + 1 < Z.of_nat (length (sent w'))).
Proof.
  split; do 2 eexists; (split; [vm_compute; reflexivity |]); split; reflexivity.
Qed.

(** A body that is no JSON comes back as { "data": ... }, without "ip":
    get_current_ip raises the generic error. *)
Lemma get_current_ip_missing_ip_witness :
  exists lookup_error w2,
    exn_class_of lookup_error = KeyError
    /\ get_current_ip (env := body_env "<html>busy</html>") w0
       = (fst (log_error (env := body_env "<html>busy</html>")
                 "Failed to detect IP address" lookup_error w2),
          Raise (new_exn Exception "Failed to detect IP address")).
Proof.
  edestruct (get_current_ip_missing_ip (env := body_env "<html>busy</html>") w0)
    as (lookup_error & Hlookup & Hrun).
  - vm_compute. reflexivity.
  - intros d [= <-]. reflexivity.
  - exists lookup_error. eexists. split; [| exact Hrun].
    vm_compute in Hlookup. injection Hlookup as <-. reflexivity.
Defined.


(** ** The further properties at work *)


(** A redirected update: the second request is the handler's, without data,
    method and Content-type, with the token. *)
Lemma make_request_redirected_requests_witness :
  exists urls,
    sent (fst (make_request (env := redirected_env) the_update_url "POST"
                 (Some [("Authorization", "Bearer s3cret");
                        ("Content-Type", "application/json")])
                 (Obj (VDict {[ "ip" := the_address ]})) 5 w0))
    = post_update
      :: map (redirected_request (content_free (req_headers post_update))) urls
    /\ (length urls <= 37)%nat
    /\ hd_get "Authorization" (content_free (req_headers post_update))
       = Some "Bearer s3cret"
    /\ hd_get "Content-type" (content_free (req_headers post_update)) = None
    /\ hd_get "Content-length" (content_free (req_headers post_update)) = None.
Proof.
  assert (Hbuilt : build_request (env := redirected_env) the_update_url "POST"
                     (Some [("Authorization", "Bearer s3cret");
                            ("Content-Type", "application/json")])
                     (Obj (VDict {[ "ip" := the_address ]}))
                   = Gives (post_update,
                            [("Authorization", "Bearer s3cret");
                             ("Content-Type", "application/json")],
                            Bytes (encode_utf8 ip_text))).
  { vm_compute. reflexivity. }
  destruct (make_request_redirected_requests (env := redirected_env) _ _ _ _ 5 w0 _ _ _
              Hbuilt) as (urls & Hsent & Hlen & Hheaders).
  exists urls. split; [exact Hsent |]. split; [exact Hlen |].
  split; [exact (Hheaders "Authorization") |].
  split; [exact (Hheaders "Content-type") | exact (Hheaders "Content-length")].
Defined.

(** The caller's content-type: text/plain is replaced. *)
Lemma make_request_sets_content_type_witness :
  exists req later,
    sent (fst (make_request (env := body_env ip_text) the_update_url "POST"
                 (Some [("content-type", "text/plain")])
                 (Obj (VDict {[ "ip" := the_address ]})) 5 w0))
    = req :: later
    /\ req_headers req = [("Content-type", "application/json")].
Proof.
  destruct (make_request_sets_content_type (env := body_env ip_text) the_update_url "POST"
              (Some [("content-type", "text/plain")])
              {[ "ip" := the_address ]} ip_text 5 w0)
    as (req & later & Hsent & Htype & _).
  - split; reflexivity.
  - apply insert_non_empty.
  - reflexivity.
  - reflexivity.
  - exists req, later. split; [exact Hsent |].
    vm_compute in Hsent. injection Hsent as <- _. reflexivity.
Defined.

Lemma make_request_falsy_body_not_sent_witness :
  exists issued,
    sent (fst (make_request (env := body_env ip_text) the_url "POST" None
                 (Obj (VDict ∅)) 5 w0))
    = issued
    /\ Forall (fun req => req_data req = NoData) issued.
Proof.
  exact (make_request_falsy_body_not_sent (env := body_env ip_text)
           the_url "POST" None (Obj (VDict ∅)) 5 w0 eq_refl).
Defined.

Lemma make_request_transport_error_witness :
  snd (make_request (env := offline_env) the_url "GET" None NoData 5 w0)
  = Raise (Exn Exception
             "Request failed: <urlopen error [Errno 111] Connection refused>"
             None None (Some refused)).
Proof.
  destruct (make_request_transport_error (env := offline_env)
              the_url "GET" None NoData 5 w0 get_ip [] NoData refused eq_refl eq_refl)
    as [_ Hfirst].
  rewrite (Hfirst eq_refl). reflexivity.
Defined.

Lemma make_request_http_error_witness :
  exists original,
    snd (make_request (env := failing_env) the_update_url "POST" None NoData 5 w0)
    = Raise (Exn Exception "Request failed with status 500" None None (Some original))
    /\ exn_response original
       = Some (VDict {[ "status" := VInt 500;
                        "data" := VDict {[ "error" := VStr "db down" ]};
                        "headers" := VDict {[ "Content-Type" := VStr "application/json" ]} ]}).
Proof.
  pose proof (make_request_http_error (env := failing_env)
                the_update_url "POST" None NoData 5 w0
                (Req the_update_url [] (Some "POST") NoData) [] NoData
                (World [] [Req the_update_url [] (Some "POST") NoData] 0 [] [])
                (http_error 500 "Internal Server Error"
                   [("Content-Type", "application/json")] (ReadText error_text))
                500 [("Content-Type", "application/json")] (ReadText error_text)
                eq_refl eq_refl eq_refl) as Herror.
  cbv zeta in Herror. destruct Herror as [Hraised _].
  eexists. split; [exact Hraised |]. reflexivity.
Defined.

(** A reset connection, bytes that are no UTF-8, and an integer of 5000
    digits: each error leaves make_request as it is. *)
Lemma make_request_other_errors_unwrapped_witness :
  snd (make_request (env := reset_env) the_url "GET" None NoData 5 w0)
  = Raise connection_reset
  /\ snd (make_request (env := garbled_env) the_url "GET" None NoData 5 w0)
     = Raise not_utf8
  /\ snd (make_request (env := body_env long_number) the_url "GET" None NoData 5 w0)
     = Raise too_many_digits.
Proof.
  split; [| split].
  - destruct (make_request_other_errors_unwrapped (env := reset_env)
                the_url "GET" None NoData 5 w0 get_ip [] NoData connection_reset
                eq_refl eq_refl) as (Hfails & _ & _).
    rewrite (Hfails (World [] [get_ip] 0 [] []) eq_refl). reflexivity.
  - destruct (make_request_other_errors_unwrapped (env := garbled_env)
                the_url "GET" None NoData 5 w0 get_ip [] NoData not_utf8
                eq_refl eq_refl) as (_ & Hread & _).
    rewrite (Hread (World [] [get_ip] 0 [] [])
               (Response (Some 200) "OK" [] (Undecodable not_utf8)) 200
               eq_refl eq_refl (or_intror eq_refl)).
    reflexivity.
  - destruct (make_request_other_errors_unwrapped (env := body_env long_number)
                the_url "GET" None NoData 5 w0 get_ip [] NoData too_many_digits
                eq_refl eq_refl) as (_ & _ & Hloads).
    assert (Hopen : urlopen (env := body_env long_number) get_ip w0
                    = (World [] [get_ip] 0 [] [], Return (ok_response long_number))).
    { vm_compute. reflexivity. }
    assert (Hsome : nonempty (strip long_number) = true).
    { vm_compute. reflexivity. }
    assert (Hthrows : json_loads (Platform := body_env long_number) long_number
                      = Throws too_many_digits).
    { vm_compute. reflexivity. }
    assert (Hclass : exn_class_of too_many_digits <> JSONDecodeError).
    { discriminate. }
    rewrite (Hloads _ _ 200 long_number Hopen eq_refl eq_refl Hsome Hthrows Hclass).
    reflexivity.
Defined.

(** The content of a file comes back without a status. *)
Lemma make_request_statusless_response_witness :
  snd (make_request (env := file_env) "file:///etc/hostname" "GET" None NoData 5 w0)
  = Raise (new_exn TypeError
             "'<=' not supported between instances of 'int' and 'NoneType'").
Proof.
  rewrite (make_request_statusless_response (env := file_env)
             "file:///etc/hostname" "GET" None NoData 5 w0
             (Req "file:///etc/hostname" [] (Some "GET") NoData) [] NoData
             (World [] [Req "file:///etc/hostname" [] (Some "GET") NoData] 0 [] [])
             (Response None "" [("Content-Length", "6")] (ReadText "hello"))
             eq_refl eq_refl eq_refl).
  reflexivity.
Defined.

Lemma update_dns_unsuccessful_is_silent_witness :
  exists w2,
    update_dns (env := body_env "<html>busy</html>") the_address w0
    = (w2, Return (VDict {[ "data" := VStr "<html>busy</html>" ]}))
    /\ console w2
       = ["[13:03:20] INFO: Updating DNS record for home.example.org to 203.0.113.7..."].
Proof.
  eexists. split.
  - apply (update_dns_unsuccessful_is_silent (env := body_env "<html>busy</html>")).
    + vm_compute. reflexivity.
    + reflexivity.
  - reflexivity.
Defined.

Lemma update_dns_result_missing_witness :
  exists w2,
    update_dns (env := answering [Replied (ok_response success_only_text)]) the_address w0
    = (logged (env := answering [Replied (ok_response success_only_text)])
         "INFO" "DNS record updated successfully to 203.0.113.7" w2,
       Return (VDict {[ "success" := VBool true ]})).
Proof.
  eexists.
  apply (update_dns_result_missing
           (env := answering [Replied (ok_response success_only_text)])).
  - vm_compute. reflexivity.
  - reflexivity.
  - reflexivity.
Defined.

Lemma update_dns_result_not_dict_witness :
  snd (update_dns (env := answering [Replied (ok_response result_string_text)])
         the_address w0)
  = Raise (new_exn AttributeError "'str' object has no attribute 'get'").
Proof.
  erewrite (update_dns_result_not_dict
              (env := answering [Replied (ok_response result_string_text)])
              the_address w0 _ _ (VStr "done")).
  - reflexivity.
  - vm_compute. reflexivity.
  - reflexivity.
  - reflexivity.
  - reflexivity.
  - intros r. discriminate.
Defined.

(** A redirected update: the token goes to the mirror. *)
Lemma update_dns_requests_witness :
  exists urls,
    sent (fst (update_dns (env := redirected_env) the_address w0))
    = post_update
      :: map (redirected_request [("Authorization", "Bearer s3cret")]) urls
    /\ (length urls <= 37)%nat.
Proof.
  assert (Hdumps : json_dumps (Platform := redirected_env)
                     (VDict {[ "ip" := the_address ]}) = Gives ip_text).
  { vm_compute. reflexivity. }
  exact (update_dns_requests (env := redirected_env) the_address ip_text w0
           (conj eq_refl eq_refl) Hdumps).
Defined.

Lemma check_and_update_ip_requests_witness :
  exists w1,
    get_current_ip (env := offline_env) w0
    = (w1, Raise (new_exn Exception "Failed to detect IP address"))
    /\ sent (fst (check_and_update_ip (env := offline_env) w0)) = sent w1
    /\ length (sent w1) = 1%nat.
Proof.
  eexists. split; [vm_compute; reflexivity |]. split; [| reflexivity].
  apply (proj2 (check_and_update_ip_requests (env := offline_env) w0)
           _ (new_exn Exception "Failed to detect IP address")).
  vm_compute. reflexivity.
Defined.

Lemma turn_when_unreachable_witness :
  console (fst (check_and_update_ip (env := offline_env) w0))
  = ["[13:03:20] INFO: Detecting public IP address...";
     "[13:03:21] ERROR: Failed to detect IP address: Request failed: <urlopen error [Errno 111] Connection refused>";
     "[13:03:22] ERROR: Update cycle failed: Failed to detect IP address";
     "[13:03:23] INFO: Will retry in 5.0 minutes"].
Proof.
  pose proof (turn_when_unreachable (env := offline_env) w0 refused
                (conj eq_refl eq_refl) eq_refl eq_refl) as Hturn.
  cbv zeta in Hturn. rewrite Hturn. reflexivity.
Defined.

(** The script with its placeholders in place: no request, four lines. *)
Lemma turn_when_url_is_rejected_witness :
  check_and_update_ip (cfg := unserved) (env := offline_env) w0
  = (World
       ["[13:03:20] INFO: Detecting public IP address...";
        "[13:03:21] ERROR: Failed to detect IP address: unknown url type: '__SERVER_URL__/api/ip'";
        "[13:03:22] ERROR: Update cycle failed: Failed to detect IP address";
        "[13:03:23] INFO: Will retry in 5.0 minutes"]
       [] 4 [] [],
     Return tt).
Proof.
  pose proof (turn_when_url_is_rejected (cfg := unserved) (env := offline_env) w0
                (new_exn ValueError "unknown url type: '__SERVER_URL__/api/ip'")
                eq_refl eq_refl eq_refl) as Hturn.
  cbv zeta in Hturn. rewrite Hturn. reflexivity.
Defined.

Lemma turn_when_server_answers_witness :
  console (fst (check_and_update_ip (env := both_answer_env) w0))
  = ["[13:03:20] INFO: Detecting public IP address...";
     "[13:03:21] INFO: Successfully detected IP: 203.0.113.7";
     "[13:03:22] INFO: Updating DNS record for home.example.org to 203.0.113.7...";
     "[13:03:23] INFO: DNS record is already up-to-date (203.0.113.7)";
     "[13:03:25] INFO: Next check scheduled at 13:08:24"]
  /\ map req_url (sent (fst (check_and_update_ip (env := both_answer_env) w0)))
     = [the_url; the_update_url].
Proof.
  pose proof (turn_when_server_answers (env := both_answer_env) w0
                (ok_response ip_text) 200 ip_text {[ "ip" := the_address ]} the_address
                ip_text
                (ok_response (result_text "unchanged")) 200 (result_text "unchanged")
                {[ "success" := VBool true;
                   "result" := VDict {[ "status" := VStr "unchanged" ]} ]}
                (VBool true) {[ "status" := VStr "unchanged" ]}
                (conj eq_refl eq_refl) (conj eq_refl eq_refl)
                eq_refl eq_refl eq_refl eq_refl eq_refl eq_refl eq_refl
                eq_refl eq_refl eq_refl eq_refl eq_refl eq_refl eq_refl eq_refl)
    as Hturn.
  cbv zeta in Hturn. rewrite Hturn. split; reflexivity.
Defined.

Lemma turn_when_update_is_refused_witness :
  console (fst (check_and_update_ip (env := refusing_env) w0))
  = ["[13:03:20] INFO: Detecting public IP address...";
     "[13:03:21] INFO: Successfully detected IP: 203.0.113.7";
     "[13:03:22] INFO: Updating DNS record for home.example.org to 203.0.113.7...";
     "[13:03:23] ERROR: Failed to update DNS record: Request failed with status 500";
     "[13:03:24] ERROR: Update cycle failed: Request failed with status 500";
     "[13:03:25] INFO: Will retry in 5.0 minutes"].
Proof.
  pose proof (turn_when_update_is_refused (env := refusing_env) w0
                (ok_response ip_text) 200 ip_text {[ "ip" := the_address ]} the_address
                ip_text server_error 500
                (conj eq_refl eq_refl) (conj eq_refl eq_refl)
                eq_refl eq_refl eq_refl eq_refl eq_refl eq_refl eq_refl
                eq_refl eq_refl eq_refl) as Hturn.
  cbv zeta in Hturn. rewrite Hturn; [reflexivity |].
  intros s. discriminate.
Defined.

Lemma run_resources_witness :
  exists w' issued,
    run (env := offline_env) 2 w0 = Looping w'
    /\ sent w' = issued
    /\ (length issued <= 152)%nat
    /\ slept w' = [UPDATE_INTERVAL; UPDATE_INTERVAL].
Proof.
  assert (Hrun : exists w', run (env := offline_env) 2 w0 = Looping w').
  { eexists. vm_compute. reflexivity. }
  destruct Hrun as [w' Hrun].
  destruct (run_resources (env := offline_env) 2 w0 w' Hrun)
    as (issued & Hsent & Hlen & Hslept).
  exists w', issued. repeat split; try assumption.
Defined.
